(** * University course registration: the AI query safety pipeline

    A shallow embedding of the read-only guard, the role policy filter, the
    row-level filter and the [ai_query] endpoint of [main.py], with the
    properties of the pipeline proved over it.

    Character model.  A Python [str] is a sequence of code points; here a
    string is a [string] whose characters are the code points U+0000 to
    U+00FF (Latin-1), one [ascii] each.  [str.lower], [str.isspace] and the
    regular expression class [\w] are written out for exactly these code
    points.  The fixed texts of the program contain three code points outside
    that range (U+274C, U+1F6AB and U+2014); in a fixed text each is held as
    its UTF-8 bytes, which keeps equality of texts and the search for an
    ASCII word inside a text as they are. *)

From Stdlib Require Import Ascii String ZArith NArith List Bool Lia.
From Stdlib Require Strings.Byte.
From stdpp Require Import base gmap strings list.

(** ** Python string primitives *)

Module PyStr.

(** [c.lower()] for one code point below 256: A-Z and the Latin-1 capitals
    U+00C0..U+00DE (the multiplication sign U+00D7 apart) move up by 32. *)
Definition lower_char (c : ascii) : ascii :=
  let n := N_of_ascii c in
  if ((65 <=? n) && (n <=? 90)
      || (192 <=? n) && (n <=? 222) && negb (n =? 215))%N
  then ascii_of_N (n + 32) else c.

(** [c.upper()] for one code point below 256.  The sharp s U+00DF becomes
    the two letters SS.  The capitals of U+00B5 and U+00FF lie outside the
    range; these two are left in place, which the uses of [upper] here cannot
    tell apart: it is applied to the seven keywords, and to a text that is
    then only tested for the prefix SELECT. *)
Definition upper_char (c : ascii) : string :=
  let n := N_of_ascii c in
  if ((97 <=? n) && (n <=? 122)
      || (224 <=? n) && (n <=? 254) && negb (n =? 247))%N
  then String (ascii_of_N (n - 32)) EmptyString
  else if (n =? 223)%N then "SS"
  else String c EmptyString.

Fixpoint lower (s : string) : string :=
  match s with
  | EmptyString => EmptyString
  | String c t => String (lower_char c) (lower t)
  end.

Fixpoint upper (s : string) : string :=
  match s with
  | EmptyString => EmptyString
  | String c t => upper_char c +:+ upper t
  end.

(** [c.isspace()] below 256. *)
Definition is_space (c : ascii) : bool :=
  let n := N_of_ascii c in
  ((9 <=? n) && (n <=? 13) || (28 <=? n) && (n <=? 32)
   || (n =? 133) || (n =? 160))%N.

(** The class [\w] of [re] on [str] patterns, below 256: alphanumeric code
    points and the underscore. *)
Definition is_word_char (c : ascii) : bool :=
  let n := N_of_ascii c in
  ((48 <=? n) && (n <=? 57) || (65 <=? n) && (n <=? 90) || (n =? 95)
   || (97 <=? n) && (n <=? 122)
   || (n =? 170) || (n =? 178) || (n =? 179) || (n =? 181) || (n =? 185)
   || (n =? 186) || (188 <=? n) && (n <=? 190)
   || (192 <=? n) && (n <=? 214) || (216 <=? n) && (n <=? 246)
   || (248 <=? n))%N.

(** [s.startswith(p)] *)
Fixpoint startswith (p s : string) : bool :=
  match p with
  | EmptyString => true
  | String a p' =>
      match s with
      | EmptyString => false
      | String b s' => Ascii.eqb a b && startswith p' s'
      end
  end.

(** [sub in s] *)
Fixpoint contains (sub s : string) : bool :=
  startswith sub s
  || match s with
     | EmptyString => false
     | String _ t => contains sub t
     end.

(** [s.lstrip(...)], [s.rstrip(...)] and [s.strip(...)]: [drop] tells the
    characters to remove. *)
Fixpoint lstrip_by (drop : ascii -> bool) (s : string) : string :=
  match s with
  | EmptyString => EmptyString
  | String c t => if drop c then lstrip_by drop t else s
  end.

Fixpoint rstrip_by (drop : ascii -> bool) (s : string) : string :=
  match s with
  | EmptyString => EmptyString
  | String c t =>
      match rstrip_by drop t with
      | EmptyString => if drop c then EmptyString else String c EmptyString
      | t' => String c t'
      end
  end.

Definition strip_by (drop : ascii -> bool) (s : string) : string :=
  rstrip_by drop (lstrip_by drop s).

(** [s.strip()] *)
Definition strip (s : string) : string := strip_by is_space s.

(** [s.strip(chars)] *)
Definition strip_chars (chars : string) (s : string) : string :=
  strip_by (fun c => contains (String c EmptyString) chars) s.

(** [sep.join(parts)] *)
Fixpoint join (sep : string) (parts : list string) : string :=
  match parts with
  | [] => EmptyString
  | [p] => p
  | p :: rest => p +:+ sep +:+ join sep rest
  end.

(** [s[:n]] for [0 <= n] *)
Fixpoint take_prefix (n : nat) (s : string) : string :=
  match n, s with
  | S n', String c t => String c (take_prefix n' t)
  | _, _ => EmptyString
  end.

Definition nl : string := String "010" EmptyString.

End PyStr.

Import PyStr.

(** ** The regular expression [\bNAME\b] with [re.IGNORECASE] *)

Module PyRe.

(** A literal pattern character [p] against a text character [c] under
    [re.IGNORECASE]. *)
Definition char_matches_ci (p c : ascii) : bool :=
  Ascii.eqb (lower_char c) (lower_char p).

Definition word_at (o : option ascii) : bool :=
  match o with
  | Some c => is_word_char c
  | None => false
  end.

Definition head (s : string) : option ascii :=
  match s with
  | EmptyString => None
  | String c _ => Some c
  end.

(** [\b]: exactly one side of the position is a word character; the two ends
    of the text count as non-word. *)
Definition boundary (prev next : option ascii) : bool :=
  xorb (word_at prev) (word_at next).

(** The literal [pat] followed by [\b], matched at the current position;
    [prev] is the character before it. *)
Fixpoint match_literal_b (pat : string) (prev : option ascii) (s : string)
  : bool :=
  match pat with
  | EmptyString => boundary prev (head s)
  | String p pat' =>
      match s with
      | EmptyString => false
      | String c t => char_matches_ci p c && match_literal_b pat' (Some c) t
      end
  end.

(** [\b pat \b] matched at the current position. *)
Definition match_here (pat : string) (prev : option ascii) (s : string)
  : bool :=
  boundary prev (head s) && match_literal_b pat prev s.

Fixpoint search_from (pat : string) (prev : option ascii) (s : string)
  : bool :=
  match_here pat prev s
  || match s with
     | EmptyString => false
     | String c t => search_from pat (Some c) t
     end.

(** Truth value of [re.search(rf"\b{name}\b", s, flags=re.IGNORECASE)], for a
    [name] without regular expression metacharacters. *)
Definition search_word (name s : string) : bool := search_from name None s.

End PyRe.

Import PyRe.

(** ** The read-only guard on generated SQL *)

(** The cross mark U+274C that opens the refusal texts, as UTF-8. *)
Definition cross_mark : string :=
  String "226" (String "157" (String "140" EmptyString)).

(** The dictionary returned by [ai_sql_guard]: [{"blocked": True, "message":
    ..., "sql": ...}] or [{"blocked": False}]. *)
Inductive guard_result : Type :=
  | Blocked (message sql : string)
  | NotBlocked.

Definition blocked (g : guard_result) : bool :=
  match g with
  | Blocked _ _ => true
  | NotBlocked => false
  end.

Definition guard_message (g : guard_result) : option string :=
  match g with
  | Blocked m _ => Some m
  | NotBlocked => None
  end.

Definition read_only_message : string :=
  cross_mark +:+ " The AI Assistant is **read-only**." +:+ nl +:+
  "Only SELECT queries are allowed. Please use the admin interface for INSERT / UPDATE / DELETE.".

Definition keyword_message (word : string) : string :=
  cross_mark +:+ " The AI Assistant cannot run `" +:+ upper word +:+
  "` commands." +:+ nl +:+
  "Use the admin dashboard for write or schema operations.".

Definition multi_statement_message : string :=
  cross_mark +:+
  " Multiple SQL statements are not allowed in the AI Assistant.".

Definition forbidden : list string :=
  ["insert"; "update"; "delete"; "create"; "drop"; "alter"; "truncate"].

Definition sql_clean_of (sql : string) : string := strip (lower sql).

Definition ai_sql_guard (sql : string) : guard_result :=
  let sql_clean := sql_clean_of sql in
  (* If not SELECT: block *)
  if negb (startswith "select" sql_clean) then
    Blocked read_only_message sql
  else
    (* Block harmful keywords anywhere *)
    match find (fun word => contains word sql_clean) forbidden with
    | Some word => Blocked (keyword_message word) sql
    | None =>
        (* Block multi-statement *)
        if contains ";" (strip_chars ";" sql_clean) then
          Blocked multi_statement_message sql
        else NotBlocked
    end.

(** ** The static role policy filter *)

(** The three tables are Python sets and a dictionary of sets; each set has
    at most one element, so the order of iteration is the one given here. *)
Definition SENSITIVE_TABLES : list string := ["login_credentials"].
Definition SENSITIVE_COLUMNS_ALWAYS : list string := ["password"].

Definition SENSITIVE_COLUMNS_BY_ROLE : gmap string (list string) :=
  <["student" := ["salary"]]>
    (<["teacher" := []]> (<["admin" := []]> ∅)).

Definition student_denied_message : string :=
  cross_mark +:+
  " Access Denied: As a student, you are not authorized to view this information. " +:+
  "You can only ask about your own courses, grades, schedule, credits, or advisor.".

Definition table_denied_message (tbl : string) : string :=
  "Access to table '" +:+ tbl +:+
  "' is not allowed through the AI assistant.".

Definition column_denied_message (col : string) : string :=
  "Access to column '" +:+ col +:+
  "' is not allowed through the AI assistant.".

Definition role_column_denied_message (role col : string) : string :=
  "Users with role '" +:+ role +:+
  "' are not allowed to query column '" +:+ col +:+ "'.".

Definition is_sql_safe_for_role (sql role username : string)
  : option string :=
  let role_lower := lower role in
  let is_student := String.eqb role_lower "student" in
  (* 1. sensitive tables *)
  match find (fun tbl => search_word tbl sql) SENSITIVE_TABLES with
  | Some tbl =>
      Some (if is_student then student_denied_message
            else table_denied_message tbl)
  | None =>
      (* 2. always-sensitive columns *)
      match find (fun col => search_word col sql) SENSITIVE_COLUMNS_ALWAYS with
      | Some col =>
          Some (if is_student then student_denied_message
                else column_denied_message col)
      | None =>
          (* 3. role-based sensitive columns *)
          let blocked_cols :=
            default [] (SENSITIVE_COLUMNS_BY_ROLE !! role_lower) in
          match find (fun col => search_word col sql) blocked_cols with
          | Some col =>
              Some (if is_student then student_denied_message
                    else role_column_denied_message role col)
          | None => None
          end
      end
  end.

(** ** The row-level filter *)

(** A value of a result row, as [sqlite3] hands it to Python: [None], [int],
    [float] (its 64 bits; the filter never looks inside), [str], [bytes]. *)
Inductive value : Type :=
  | VNone
  | VInt (n : Z)
  | VFloat (bits : Z)
  | VStr (s : string)
  | VBytes (b : list Byte.byte).

Global Instance byte_eq_dec : EqDecision Byte.byte := Strings.Byte.byte_eq_dec.

Global Instance value_eq_dec : EqDecision value.
Proof. solve_decision. Defined.

(** [isinstance(v, str)] *)
Definition is_str (v : value) : bool :=
  match v with
  | VStr _ => true
  | _ => false
  end.

(** [v != text] for a [str] on the right: only an equal [str] is equal. *)
Definition ne_str (v : value) (text : string) : bool :=
  match v with
  | VStr s => negb (String.eqb s text)
  | _ => true
  end.

(** The body of the loop of [post_filter_results_for_role] for one row [r]:
    the final value of [keep]. *)
Definition keep_row (role_l username : string) (r : gmap string value)
  : bool :=
  let keep := true in
  if String.eqb role_l "student" then
    let keep :=
      match r !! "ID" with
      | Some val =>
          if is_str val && ne_str val username then false else keep
      | None => keep
      end in
    let keep :=
      match r !! "s_ID" with
      | Some v => if ne_str v username then false else keep
      | None => keep
      end in
    keep
  else if String.eqb role_l "teacher" then
    let keep :=
      match r !! "ID" with
      | Some val =>
          match val with
          | VStr s =>
              if startswith "T" s && ne_str val username then false else keep
          | _ => keep
          end
      | None => keep
      end in
    let keep :=
      match r !! "i_ID" with
      | Some val =>
          match val with
          | VStr s =>
              if startswith "T" s && ne_str val username then false else keep
          | _ => keep
          end
      | None => keep
      end in
    keep
  else keep.

Definition post_filter_results_for_role
  (results : list (gmap string value)) (role username : string)
  : list (gmap string value) :=
  let role_l := lower role in
  if String.eqb role_l "admin" then results
  else
    fold_left
      (fun filtered row =>
         let r := row in (* dict(row): an equal copy *)
         if keep_row role_l username r then filtered ++ [r]
         else filtered)
      results [].

(** ** The endpoint [ai_query] *)

(** The request body [AIQuerySchema]; [role] is any string. *)
Record AIQuerySchema : Type := {
  username : string;
  role : string;
  query : string;
}.

(** The field constraints that the request model checks before the endpoint
    runs: [username] of 1 to 50 characters, [query] of 1 to 1000, [role]
    unconstrained. *)
Definition valid_request (data : AIQuerySchema) : Prop :=
  1 <= String.length (username data) <= 50
  /\ 1 <= String.length (query data) <= 1000.

(** The dictionary returned by the endpoint. *)
Record Response : Type := {
  status : string;
  response : string;
  sql_query : string;
}.

(** The two decoding temperatures the endpoint asks for: 0.0 and 0.2. *)
Inductive temperature : Type :=
  | Temp_0_0
  | Temp_0_2.

(** What one call of [client.models.generate_content] does: it returns a reply
    whose [text] is a string or [None], raises [APIError], or raises some
    other exception; the errors carry their [str(e)]. *)
Inductive generation : Type :=
  | Reply (text : option string)
  | RaisesAPIError (details : string)
  | RaisesOther (details : string).

Record Client : Type := {
  generate_content : string -> temperature -> generation;
}.

(** What a block [with get_db_connection() as conn: ...] does: it yields its
    rows; or [sqlite3.Error] is raised on connecting or inside the block,
    which [get_db_connection] replaces by its [HTTPException]; or another
    exception passes through, carrying its [str(e)]. *)
Inductive db_outcome (A : Type) : Type :=
  | Rows (rows : A)
  | RaisesSqliteError
  | RaisesOtherInDb (details : string).

Arguments Rows {A} rows.
Arguments RaisesSqliteError {A}.
Arguments RaisesOtherInDb {A} details.

(** The collaborators of the endpoint during one request. *)
Record World : Type := {
  (** the module variable [client] *)
  client : option Client;
  (** the rows [(name, sql)] of [sqlite_master] for the tables *)
  db_tables : db_outcome (list (string * option string));
  (** [conn.execute(sql)] followed by [dict(row)] on every row fetched *)
  db_execute : string -> db_outcome (list (gmap string value));
  (** [str(e)] of the [HTTPException] raised by [get_db_connection] *)
  http_exception_text : string;
  (** [str(row)] of a result row *)
  str_row : gmap string value -> string;
}.

Inductive log_level : Type :=
  | INFO
  | WARNING
  | ERROR.

(** What the endpoint does besides returning: its own log records, its calls
    to the provider and to the store, and its [print]. *)
Inductive event : Type :=
  | Log (level : log_level) (message : string)
  | GenerateCall (contents : string) (temp : temperature)
  | ReadSchema
  | ExecuteSql (sql : string)
  | Printed (text : string).

Definition is_generate_call (e : event) : bool :=
  match e with
  | GenerateCall _ _ => true
  | _ => false
  end.

Definition dangerous_keywords : list string :=
  ["drop"; "delete"; "update"; "insert"; "alter"; "create"; "truncate"].

Definition read_only_refusal : string :=
  cross_mark +:+ " AI Assistant is limited to **read-only** access." +:+ nl +:+
  "Write operations such as CREATE, UPDATE, DELETE, or ALTER " +:+
  "are not allowed." +:+ nl +:+
  "Please use the admin dashboard for changes.".

Definition ai_disabled_message : string :=
  "AI is currently disabled due to missing API key or connection error.".

Definition placeholder : string := "N/A".

(** [str(v)] inside an f-string for an optional text: [None] prints as
    its name. *)
Definition str_opt (o : option string) : string :=
  match o with
  | Some s => s
  | None => "None"
  end.

Definition schema_info_of (tables : list (string * option string))
  : string :=
  let visible_tables :=
    List.filter
      (fun t => negb (existsb (String.eqb (fst t)) SENSITIVE_TABLES))
      tables in
  join nl
    (List.map
       (fun t => "Table: " +:+ fst t +:+ nl +:+ "Schema: " +:+ str_opt (snd t))
       visible_tables).

Definition sql_generation_prompt (data : AIQuerySchema) (schema_info : string)
  : string :=
  nl +:+ join nl
    [ "You are an expert SQLite writer. Translate the user's natural-language question into a single, valid SQLite SELECT query.";
      "";
      "User role: " +:+ role data;
      "Username: " +:+ username data;
      "";
      "SECURITY / ACCESS RULES (you MUST obey these):";
      "- Only generate SELECT queries.";
      "- Never query the table 'login_credentials'.";
      "- Never select any column named 'password'.";
      "- Admin can query about all teachers and all students.";
      "- Teachers can query about ALL students, but ONLY about themselves from instructor-related tables.";
      "- Students can only query about themselves:";
      "  * When using tables with student IDs (student.ID, takes.ID, advisor.s_ID),";
      "    always filter to the current student's ID = '" +:+ username data +:+ "'.";
      "";
      "If the user's question would violate these rules, generate a harmless SELECT that returns no rows, like:";
      "  SELECT 'Access denied by AI policy' AS message WHERE 1=0;";
      "";
      "Do not add any text, explanations, or markdown formatting (e.g., ```sql). Only output the SQL query itself.";
      "";
      "Available tables and their schemas:";
      schema_info;
      "";
      "User Question: " +:+ query data;
      "";
      "SQL Query:";
      "" ].

(** U+1F6AB and U+2014 as UTF-8. *)
Definition no_entry_sign : string :=
  String "240" (String "159" (String "154" (String "171" EmptyString))).
Definition em_dash : string :=
  String "226" (String "128" (String "148" EmptyString)).

Definition answer_synthesis_prompt
  (data : AIQuerySchema) (sql result_str : string) : string :=
  nl +:+ join nl
    [ "You are a helpful university assistant. Based ONLY on the SQL Query and the raw SQL Result provided below,";
      "provide a concise, natural language answer to the user's Question.";
      "";
      "If the result is empty, say '" +:+ no_entry_sign +:+
        " No matching records found " +:+ em_dash +:+
        " or you may not have permission to view this information.'";
      "";
      "Question: " +:+ query data;
      "SQL Query: " +:+ sql;
      "SQL Result: " +:+ result_str;
      "Answer:";
      "" ].

Definition none_has_no_strip : string :=
  "'NoneType' object has no attribute 'strip'".

Definition fail (text sql : string) : Response :=
  {| status := "fail"; response := text; sql_query := sql |}.

(** The handlers [except APIError] and [except Exception] of the endpoint.
    The handler [except sqlite3.Error] is never entered: the store is only
    used inside [get_db_connection], which replaces that error. *)
Definition on_api_error (data : AIQuerySchema) (tr : list event)
  (details : string) : list event * Response :=
  (tr ++ [Log ERROR ("Gemini API error for user " +:+ username data +:+
                     ": " +:+ details)],
   fail ("AI error: Failed to process query due to API issue. " +:+
         "Details: " +:+ details) placeholder).

Definition on_exception (data : AIQuerySchema) (tr : list event)
  (details : string) : list event * Response :=
  (tr ++ [Log ERROR ("AI query error for user " +:+ username data +:+
                     ": " +:+ details)],
   fail ("AI error: An internal error occurred. Details: " +:+ details)
        placeholder).

(** Steps 3, 3b and 4 of the endpoint, for a statement [sql] that passed the
    checks. *)
Definition execute_and_answer (w : World) (cl : Client)
  (data : AIQuerySchema) (sql : string) (tr : list event)
  : list event * Response :=
  let tr := tr ++ [ExecuteSql sql] in
  match db_execute w sql with
  | RaisesSqliteError => on_exception data tr (http_exception_text w)
  | RaisesOtherInDb details => on_exception data tr details
  | Rows raw_results =>
      let results :=
        post_filter_results_for_role raw_results (role data) (username data) in
      let result_str := join nl (List.map (str_row w) results) in
      let prompt := answer_synthesis_prompt data sql result_str in
      let tr := tr ++ [GenerateCall prompt Temp_0_2] in
      match generate_content cl prompt Temp_0_2 with
      | RaisesAPIError details => on_api_error data tr details
      | RaisesOther details => on_exception data tr details
      | Reply None => on_exception data tr none_has_no_strip
      | Reply (Some text) =>
          let answer := strip text in
          (tr ++ [Log INFO ("AI query successful for user " +:+
                            username data)],
           {| status := "success"; response := answer; sql_query := sql |})
      end
  end.

(** The checks on the generated statement. *)
Definition check_and_run (w : World) (cl : Client)
  (data : AIQuerySchema) (schema_info sql : string) (tr : list event)
  : list event * Response :=
  match ai_sql_guard sql with
  | Blocked message guard_sql =>
      (tr ++ [Log WARNING ("AI SQL guard blocked query for user " +:+
                           username data +:+ ": " +:+ message)],
       fail message guard_sql)
  | NotBlocked =>
      let normalized_sql := strip (upper sql) in
      if negb (startswith "SELECT" normalized_sql) then
        (tr ++ [Log WARNING
                  ("AI query blocked: LLM generated non-SELECT query: " +:+
                   sql)],
         fail "I can only execute SELECT queries for data retrieval." sql)
      else
        match is_sql_safe_for_role sql (role data) (username data) with
        | Some error_msg =>
            if String.eqb error_msg "" then
              execute_and_answer w cl data sql (tr ++ [Printed schema_info])
            else
              (tr ++ [Log WARNING ("AI query blocked for user " +:+
                                   username data +:+ " (" +:+ role data +:+
                                   "): " +:+ error_msg)],
               fail error_msg sql)
        | None =>
            execute_and_answer w cl data sql (tr ++ [Printed schema_info])
        end
  end.

(** The [try] block of the endpoint, entered with a [client]. *)
Definition generate_and_run (w : World) (cl : Client)
  (data : AIQuerySchema) (tr : list event) : list event * Response :=
  (* 1. schema for context *)
  let tr := tr ++ [ReadSchema] in
  match db_tables w with
  | RaisesSqliteError => on_exception data tr (http_exception_text w)
  | RaisesOtherInDb details => on_exception data tr details
  | Rows tables =>
      let schema_info := schema_info_of tables in
      (* 2. first call: generate SQL *)
      let prompt := sql_generation_prompt data schema_info in
      let tr := tr ++ [GenerateCall prompt Temp_0_0] in
      match generate_content cl prompt Temp_0_0 with
      | RaisesAPIError details => on_api_error data tr details
      | RaisesOther details => on_exception data tr details
      | Reply None => on_exception data tr none_has_no_strip
      | Reply (Some text) =>
          check_and_run w cl data schema_info (strip text) tr
      end
  end.

Definition ai_query (w : World) (data : AIQuerySchema)
  : list event * Response :=
  let tr :=
    [Log INFO ("AI query from user " +:+ username data +:+ " (" +:+
               role data +:+ "): " +:+ take_prefix 100 (query data) +:+
               "...")] in
  (* Basic DML keyword block on the natural language question *)
  let query_lower := lower (query data) in
  if existsb (fun keyword => contains keyword query_lower) dangerous_keywords
  then
    (tr ++ [Log WARNING
              ("AI query blocked: Potentially dangerous query from user " +:+
               username data)],
     fail read_only_refusal placeholder)
  else
    match client w with
    | None =>
        (tr ++ [Log WARNING "AI query failed: Gemini client not initialized"],
         fail ai_disabled_message placeholder)
    | Some cl => generate_and_run w cl data tr
    end.

(** ** Notions used to state the properties *)

(** The last character of [s], or [prev] when [s] is empty. *)
Fixpoint last_from (prev : option ascii) (s : string) : option ascii :=
  match s with
  | EmptyString => prev
  | String c t => last_from (Some c) t
  end.

Definition last_char (s : string) : option ascii := last_from None s.

(** [name] occurs in [s] as a whole word, in any letter case: some stretch
    [w] of [s] reads [name] up to case, and neither the character before it
    nor the character after it is a word character. *)
Definition occurs_as_word (name s : string) : Prop :=
  exists pre w post,
    s = pre +:+ w +:+ post
    /\ lower w = lower name
    /\ word_at (last_char pre) = false
    /\ word_at (head post) = false.

(** A text cites a keyword when it contains the keyword in capitals. *)
Definition cites (message word : string) : bool :=
  contains (upper word) message.

Definition semicolon : ascii := ";"%char.

(** A [;] stands somewhere else than at the very end of [s]. *)
Definition separator_misused (s : string) : Prop :=
  exists pre post, s = pre +:+ ";" +:+ post /\ post <> "".

(** A [;] of [s] is followed, at some distance, by a character other
    than [;]. *)
Definition separator_inside (s : string) : Prop :=
  exists pre mid b post,
    s = pre +:+ ";" +:+ mid +:+ String b post /\ b <> semicolon.

(** [w] is the first element of [l] that satisfies [f]. *)
Definition first_such {A : Type} (f : A -> bool) (l : list A) (w : A)
  : Prop :=
  exists before after,
    l = before ++ w :: after
    /\ f w = true
    /\ Forall (fun x => f x = false) before.

(** For a student [username], the row [r] belongs to someone else: its [ID]
    is a string other than [username], or its [s_ID] is anything other than
    the string [username]. *)
Definition foreign_to_student (username : string) (r : gmap string value)
  : Prop :=
  (exists s, r !! "ID" = Some (VStr s) /\ s <> username)
  \/ (exists v, r !! "s_ID" = Some v /\ v <> VStr username).

(** A value identifies an instructor when it is a string that starts
    with [T]; this is the test the filter applies. *)
Definition identifies_instructor (v : value) : Prop :=
  exists s, v = VStr s /\ startswith "T" s = true.

(** The cell [o] of a row (a value, or nothing when the row has no such
    column) names an instructor other than [username]. *)
Definition names_other_instructor (username : string) (o : option value)
  : Prop :=
  exists v, o = Some v /\ identifies_instructor v /\ v <> VStr username.

(** For a teacher [username], the row [r] belongs to another instructor: its
    [ID] or its [i_ID] identifies an instructor other than [username]. *)
Definition foreign_to_teacher (username : string) (r : gmap string value)
  : Prop :=
  names_other_instructor username (r !! "ID")
  \/ names_other_instructor username (r !! "i_ID").

(** The events of a run that are calls to the provider. *)
Definition generate_calls (tr : list event) : list event :=
  List.filter is_generate_call tr.

(** [sub] is a piece of [text]. *)
Definition substring_of (sub text : string) : Prop :=
  exists pre post, text = pre +:+ sub +:+ post.

(** ** Two worlds to run the endpoint in *)

(** No provider, an empty store. *)
Definition offline_world : World :=
  {| client := None;
     db_tables := Rows [];
     db_execute := fun _ => Rows [];
     http_exception_text := "500: Database connection failed";
     str_row := fun _ => "{}" |}.

(** A provider that answers the first call with a statement over [takes]
    and the second with a sentence, and a store whose [takes] holds one row
    of [S001] and one of [S002]. *)
Definition scripted_client : Client :=
  {| generate_content := fun _ temp =>
       match temp with
       | Temp_0_0 => Reply (Some "SELECT ID, grade FROM takes;")
       | Temp_0_2 => Reply (Some " You have one grade on record. ")
       end |}.

Definition takes_rows : list (gmap string value) :=
  [ <["ID" := VStr "S001"]> {["grade" := VStr "A"]};
    <["ID" := VStr "S002"]> {["grade" := VStr "B"]} ].

Definition scripted_world : World :=
  {| client := Some scripted_client;
     db_tables :=
       Rows [("takes", Some "CREATE TABLE takes(ID TEXT, grade TEXT)");
             ("login_credentials", Some "CREATE TABLE login_credentials(username TEXT, password TEXT)")];
     db_execute := fun _ => Rows takes_rows;
     http_exception_text := "500: Database connection failed";
     str_row := fun r =>
       match r !! "ID" with
       | Some (VStr s) => "{'ID': '" +:+ s +:+ "'}"
       | _ => "{}"
       end |}.

(** ** The account endpoints [login], [update_password] and [reject_user] *)

Module Accounts.

(** A row of the table [login_credentials], without its key [username]. *)
Record credential : Type := {
  password : value;
  role : value;
  approved : value;
}.

(** What an endpoint does: it returns a dictionary, or raises
    [HTTPException(status_code, detail)]. *)
Inductive result : Type :=
  | Returns (body : gmap string value)
  | RaisesHTTP (status_code : Z) (detail : string).

(** [v == text] for a [str] on the right. *)
Definition eq_str (v : value) (text : string) : bool := negb (ne_str v text).

(** [v == 1] and [v == -1]: the integer, or the float of that value; the
    64 bits of a float are read as an unsigned number, sign bit first. *)
Definition eq_one (v : value) : bool :=
  match v with
  | VInt n => (n =? 1)%Z
  | VFloat bits => (bits =? 4607182418800017408)%Z
  | _ => false
  end.

Definition eq_minus_one (v : value) : bool :=
  match v with
  | VInt n => (n =? -1)%Z
  | VFloat bits => (bits =? 13830554455654793216)%Z
  | _ => false
  end.

Definition message_body (status message : string) : gmap string value :=
  <["status" := VStr status]> {["message" := VStr message]}.

Definition invalid_credentials : gmap string value :=
  message_body "fail" "Invalid credentials".

(** The store is the table [login_credentials] by [username], or [None]
    for a store that raises [sqlite3.Error] as soon as the request uses it:
    on connecting, or on the first statement outside any [try] block.  In
    [login] and in [update_password] every such error, wherever it is
    raised, gets the one answer given for [None]. *)

(** [login(credentials)], with [credentials.username] and
    [credentials.password]. *)
Definition login (db : option (gmap string credential))
  (username password : string) : result :=
  match db with
  | None => RaisesHTTP 500 "Login failed due to server error"
  | Some creds =>
      match creds !! username with
      | None => Returns invalid_credentials
      | Some user =>
          if ne_str (Accounts.password user) password then
            Returns invalid_credentials
          else if eq_str (role user) "admin" || eq_one (approved user) then
            Returns (<["status" := VStr "success"]> {["role" := role user]})
          else Returns (message_body "fail" "User not approved yet")
      end
  end.

(** [update_password(data)], with [data.username], [data.old_password] and
    [data.new_password]; the result and the store afterwards. *)
Definition update_password (db : option (gmap string credential))
  (username old_password new_password : string)
  : result * option (gmap string credential) :=
  match db with
  | None => (RaisesHTTP 500 "Database connection failed", db)
  | Some creds =>
      match creds !! username with
      | None => (RaisesHTTP 404 "User not found", db)
      | Some user =>
          if ne_str (password user) old_password then
            (RaisesHTTP 400 "Old password does not match", db)
          else
            (Returns (message_body "success" "Password updated"),
             Some (<[username :=
                       {| password := VStr new_password;
                          role := role user;
                          approved := approved user |}]> creds))
      end
  end.

(** The operations of [reject_user] that can raise [sqlite3.Error] once
    the connection is open and [BEGIN] has run: the [SELECT], the [UPDATE]
    and the [commit] inside the [try] block, and the [ROLLBACK] of its
    handler. *)
Record faults : Type := {
  select_raises : bool;
  update_raises : bool;
  commit_raises : bool;
  rollback_raises : bool;
}.

Definition no_faults : faults :=
  {| select_raises := false; update_raises := false;
     commit_raises := false; rollback_raises := false |}.

(** The handler [except Exception] of [reject_user]: [ROLLBACK], then
    500 Reject failed; when the [ROLLBACK] raises, its [sqlite3.Error]
    leaves the handler and [get_db_connection] answers in its place. *)
Definition reject_handler (f : faults) : result :=
  if rollback_raises f then RaisesHTTP 500 "Database connection failed"
  else RaisesHTTP 500 "Reject failed".

(** [reject_user(data)], with [data.username]; the result and the store
    afterwards.  [None] is a store that raises on connecting or on [BEGIN],
    before the [try] block.  Inside the block, whatever is raised reaches
    the handler: an error of the store, and also the 404 raised for an
    unknown user.  Nothing is written unless the [commit] returns. *)
Definition reject_user (f : faults) (db : option (gmap string credential))
  (username : string) : result * option (gmap string credential) :=
  match db with
  | None => (RaisesHTTP 500 "Database connection failed", db)
  | Some creds =>
      if select_raises f then (reject_handler f, db)
      else
        match creds !! username with
        | None => (reject_handler f, db)
        | Some user =>
            if eq_minus_one (approved user) then
              (Returns (message_body "fail" "User already rejected"), db)
            else if update_raises f then (reject_handler f, db)
            else if commit_raises f then (reject_handler f, db)
            else
              (Returns (message_body "success"
                          ("User " +:+ username +:+ " rejected")),
               Some (<[username :=
                         {| password := password user;
                            role := role user;
                            approved := VInt (-1) |}]> creds))
        end
  end.

(** The department given to a new student or instructor:
    [(major or "CS").strip() or "CS"]. *)
Definition dept (major : option string) : string :=
  let given :=
    match major with
    | Some s => if String.eqb s "" then "CS" else s
    | None => "CS"
    end in
  let stripped := strip given in
  if String.eqb stripped "" then "CS" else stripped.

End Accounts.

(** * Properties *)

(** ** The primitives on small inputs *)

Example lower_mixed : lower "SeLeCT *" = "select *".
Proof. reflexivity. Qed.

Example upper_word : upper "truncate" = "TRUNCATE".
Proof. reflexivity. Qed.

Example strip_spaces : strip "  select 1; " = "select 1;".
Proof. reflexivity. Qed.

Example strip_semicolons : strip_chars ";" ";;a;b;;" = "a;b".
Proof. reflexivity. Qed.

Example contains_inside_word : contains "drop" "select dropped" = true.
Proof. reflexivity. Qed.

Example search_word_whole :
  search_word "password" "SELECT Password, name" = true.
Proof. reflexivity. Qed.

Example search_word_inside :
  search_word "password" "SELECT password_hint" = false.
Proof. reflexivity. Qed.

(** ** Strings *)

Section StringFacts.

Implicit Types (s t u pre post sub : string) (c : ascii).

Lemma sapp_nil_l s : "" +:+ s = s.
Proof. reflexivity. Qed.

Lemma sapp_cons c s t : String c s +:+ t = String c (s +:+ t).
Proof. reflexivity. Qed.

Lemma sapp_nil_r s : s +:+ "" = s.
Proof. induction s as [|c s IH]; [reflexivity|]. by rewrite sapp_cons, IH. Qed.

Lemma sapp_assoc s t u : (s +:+ t) +:+ u = s +:+ (t +:+ u).
Proof.
  induction s as [|c s IH]; [reflexivity|]. by rewrite !sapp_cons, IH.
Qed.

Lemma lower_app s t : lower (s +:+ t) = lower s +:+ lower t.
Proof.
  induction s as [|c s IH]; [reflexivity|].
  rewrite sapp_cons. simpl. by rewrite IH, sapp_cons.
Qed.

Lemma startswith_app sub t : startswith sub (sub +:+ t) = true.
Proof.
  induction sub as [|c sub IH]; [reflexivity|].
  rewrite sapp_cons. simpl. by rewrite Ascii.eqb_refl, IH.
Qed.

Lemma startswith_inv sub s :
  startswith sub s = true -> exists t, s = sub +:+ t.
Proof.
  revert s. induction sub as [|a sub IH]; intros s H.
  - by exists s.
  - destruct s as [|b s]; [discriminate|]. simpl in H.
    apply andb_true_iff in H as [Hab Hs].
    apply Ascii.eqb_eq in Hab as ->.
    destruct (IH _ Hs) as [t ->]. by exists t.
Qed.

(** [sub in s] holds exactly when [s] is [sub] with something before and
    something after. *)
Lemma contains_spec sub s :
  contains sub s = true <-> exists pre post, s = pre +:+ sub +:+ post.
Proof.
  split.
  - induction s as [|c s IH]; simpl; intros H.
    + rewrite orb_false_r in H. apply startswith_inv in H as [t Ht].
      by exists "", t.
    + apply orb_true_iff in H as [H|H].
      * apply startswith_inv in H as [t Ht]. by exists "", t.
      * destruct (IH H) as (pre & post & ->). by exists (String c pre), post.
  - intros (pre & post & ->). induction pre as [|c pre IH].
    + rewrite sapp_nil_l.
      destruct (sub +:+ post) eqn:E; simpl; rewrite <- E.
      * by rewrite startswith_app.
      * by rewrite startswith_app.
    + rewrite sapp_cons. simpl. by rewrite IH, orb_true_r.
Qed.

Lemma contains_app_r sub s t :
  contains sub s = true -> contains sub (s +:+ t) = true.
Proof.
  rewrite !contains_spec. intros (pre & post & ->).
  exists pre, (post +:+ t). by rewrite !sapp_assoc.
Qed.

Lemma contains_app_l sub s t :
  contains sub t = true -> contains sub (s +:+ t) = true.
Proof.
  rewrite !contains_spec. intros (pre & post & ->).
  exists (s +:+ pre), post. by rewrite !sapp_assoc.
Qed.

End StringFacts.

Section StripFacts.

Variable drop : ascii -> bool.

Implicit Types (s t pre post sub : string) (a b c : ascii).

(** Stripping on the left stops at the first character that stays. *)
Lemma lstrip_by_keep a s :
  drop a = false -> lstrip_by drop (String a s) = String a s.
Proof. intros H. simpl. by rewrite H. Qed.

(** Stripping on the right leaves everything up to a character that stays. *)
Lemma rstrip_by_app_keep s b t :
  drop b = false ->
  rstrip_by drop (s +:+ String b t) = s +:+ String b (rstrip_by drop t).
Proof.
  intros Hb. induction s as [|c s IH].
  - rewrite !sapp_nil_l. simpl. rewrite Hb. by destruct (rstrip_by drop t).
  - rewrite !sapp_cons. simpl. rewrite IH.
    destruct s; by rewrite ?sapp_nil_l, ?sapp_cons.
Qed.

(** A text that starts with a character that stays survives [lstrip]. *)
Lemma contains_lstrip_by a sub s :
  drop a = false ->
  contains (String a sub) s = true ->
  contains (String a sub) (lstrip_by drop s) = true.
Proof.
  intros Ha. induction s as [|c s IH]; [done|].
  intros H. simpl. destruct (drop c) eqn:Hc; [|exact H].
  apply IH. simpl in H. apply orb_true_iff in H as [H|H]; [|exact H].
  apply andb_true_iff in H as [Hac _]. apply Ascii.eqb_eq in Hac. congruence.
Qed.

(** A text that ends with a character that stays survives [rstrip]. *)
Lemma contains_rstrip_by sub b s :
  drop b = false ->
  contains (sub +:+ String b "") s = true ->
  contains (sub +:+ String b "") (rstrip_by drop s) = true.
Proof.
  intros Hb. rewrite !contains_spec. intros (pre & post & ->).
  exists pre, (rstrip_by drop post).
  rewrite !sapp_assoc, sapp_cons, sapp_nil_l.
  rewrite <- (sapp_assoc pre sub).
  by rewrite rstrip_by_app_keep, sapp_assoc.
Qed.

End StripFacts.

(** No forbidden keyword starts or ends with white space, so trimming the
    text keeps every occurrence. *)
Lemma contains_strip_forbidden word s :
  In word forbidden ->
  contains word s = true -> contains word (strip s) = true.
Proof.
  intros Hin H. unfold strip, strip_by.
  repeat (destruct Hin as [<-|Hin];
    [ match goal with
      | |- contains ?w _ = _ =>
          let w' := eval vm_compute in (String.rev w) in
          match w' with
          | String ?b ?r =>
              let front := eval vm_compute in (String.rev r) in
              change w with (front +:+ String b "")
          end
      end;
      apply contains_rstrip_by; [reflexivity|];
      apply (contains_lstrip_by is_space); [reflexivity|exact H]
    | ]).
  destruct Hin.
Qed.

(** ** The row-level filter *)

Section RowFilter.

Implicit Types (results : list (gmap string value)) (r : gmap string value).
Implicit Types (role username : string).

(** The loop that appends the kept rows builds the filtered list. *)
Lemma append_loop_filter (keep : gmap string value -> bool) results acc :
  fold_left
    (fun filtered row => if keep row then filtered ++ [row] else filtered)
    results acc
  = acc ++ List.filter keep results.
Proof.
  revert acc. induction results as [|r results IH]; intros acc; simpl.
  - by rewrite app_nil_r.
  - rewrite IH. destruct (keep r); [|done].
    by rewrite <- app_assoc.
Qed.

Lemma post_filter_unfold results role username :
  post_filter_results_for_role results role username
  = if String.eqb (lower role) "admin" then results
    else List.filter (keep_row (lower role) username) results.
Proof.
  unfold post_filter_results_for_role.
  destruct (String.eqb (lower role) "admin"); [done|].
  by rewrite (append_loop_filter (keep_row (lower role) username)).
Qed.

Lemma filter_filter_same {A} (f : A -> bool) (l : list A) :
  List.filter f (List.filter f l) = List.filter f l.
Proof.
  induction l as [|x l IH]; [done|]. simpl.
  destruct (f x) eqn:E; [|done]. simpl. by rewrite E, IH.
Qed.

Lemma filter_all {A} (f : A -> bool) (l : list A) :
  (forall x, f x = true) -> List.filter f l = l.
Proof.
  intros H. induction l as [|x l IH]; [done|]. simpl. by rewrite H, IH.
Qed.

Lemma ne_str_spec (v : value) (text : string) :
  ne_str v text = true <-> v <> VStr text.
Proof.
  destruct v as [| | |s|]; simpl; try (split; [congruence|done]).
  rewrite negb_true_iff, String.eqb_neq. split; congruence.
Qed.

Lemma ne_str_false (v : value) (text : string) :
  ne_str v text = false <-> v = VStr text.
Proof.
  rewrite <- not_true_iff_false, ne_str_spec.
  destruct (decide (v = VStr text)); split; tauto.
Qed.

(** The student branch of the loop keeps exactly the rows that are not
    foreign to the student. *)
Lemma keep_row_student username r :
  keep_row "student" username r = true <-> ~ foreign_to_student username r.
Proof.
  unfold keep_row, foreign_to_student.
  change (String.eqb "student" "student") with true. cbv beta iota zeta.
  generalize (r !! "ID") (r !! "s_ID"). intros o1 o2.
  destruct o1 as [val|], o2 as [v|].
  all: try (destruct (ne_str v username) eqn:E;
            [apply ne_str_spec in E | apply ne_str_false in E]).
  all: try (destruct val as [| | |s|]; cbn [is_str andb];
            try (destruct (ne_str (VStr s) username) eqn:E';
                 [apply ne_str_spec in E' | apply ne_str_false in E'])).
  all: split; [intros H | intros H; try reflexivity; exfalso; apply H].
  all: try discriminate H.
  all: try (intros [(s' & Hs & Hne) | (v' & Hv & Hne)]; congruence).
  all: try (right; eexists; split; [reflexivity|assumption]).
  all: try (left; eexists; split; [reflexivity|congruence]).
Qed.

(** The teacher branch of the loop keeps exactly the rows that are not
    foreign to the teacher. *)
Lemma keep_row_teacher username r :
  keep_row "teacher" username r = true <-> ~ foreign_to_teacher username r.
Proof.
  unfold keep_row, foreign_to_teacher.
  change (String.eqb "teacher" "student") with false.
  change (String.eqb "teacher" "teacher") with true. cbv beta iota zeta.
  generalize (r !! "ID") (r !! "i_ID"). intros o1 o2.
  assert (forall o : option value,
            match o with
            | Some (VStr s) =>
                startswith "T" s && ne_str (VStr s) username = true
            | _ => False
            end <-> names_other_instructor username o) as Hcell.
  { intros o. unfold names_other_instructor, identifies_instructor. split.
    - destruct o as [[| | |s|]|]; try tauto.
      intros [HT Hne]%andb_true_iff. apply ne_str_spec in Hne.
      exists (VStr s). repeat split; [|assumption]. by exists s.
    - intros (v & -> & (s & -> & HT) & Hne).
      apply ne_str_spec in Hne. by rewrite HT, Hne. }
  rewrite <- !Hcell.
  destruct o1 as [[| | |s1|]|], o2 as [[| | |s2|]|].
  all: try destruct (startswith "T" s1 && ne_str (VStr s1) username).
  all: try destruct (startswith "T" s2 && ne_str (VStr s2) username).
  all: split; [intros H [H'|H']; (discriminate || tauto)
              | intros H; try reflexivity; exfalso; apply H; tauto].
Qed.

(** Any other role keeps every row. *)
Lemma keep_row_other role_l username r :
  role_l <> "student" -> role_l <> "teacher" ->
  keep_row role_l username r = true.
Proof.
  intros Hs Ht. unfold keep_row.
  apply String.eqb_neq in Hs, Ht. rewrite Hs, Ht. reflexivity.
Qed.

End RowFilter.

Section RowFilterClaims.

Implicit Types (results : list (gmap string value)) (r : gmap string value).
Implicit Types (role username : string).

(** C7. For the role admin, in any letter case, the row filter returns its
    input: the same rows, in the same order, each with the same contents. *)
Theorem post_filter_admin_noop results role username :
  lower role = "admin" ->
  post_filter_results_for_role results role username = results.
Proof.
  intros Hrole. rewrite post_filter_unfold, Hrole. reflexivity.
Qed.

Lemma post_filter_admin_noop_witness :
  lower "Admin" = "admin"
  /\ post_filter_results_for_role
       [{["ID" := VStr "S001"]}; {["i_ID" := VStr "T002"]}] "Admin" "root"
     = [{["ID" := VStr "S001"]}; {["i_ID" := VStr "T002"]}].
Proof.
  split; [reflexivity|]. apply post_filter_admin_noop. reflexivity.
Defined.

(** C8. The row filter is idempotent: for every role, user name and list of
    rows, filtering the filtered rows again changes nothing. *)
Theorem post_filter_idempotent results role username :
  post_filter_results_for_role
    (post_filter_results_for_role results role username) role username
  = post_filter_results_for_role results role username.
Proof.
  rewrite !post_filter_unfold.
  destruct (String.eqb (lower role) "admin"); [reflexivity|].
  apply filter_filter_same.
Qed.

(** C9. For a role whose lowercase form is none of admin, student and
    teacher, the row filter returns every input row unchanged, which is
    what it returns for admin. *)
Theorem post_filter_unknown_role results role username :
  lower role <> "admin" ->
  lower role <> "student" ->
  lower role <> "teacher" ->
  post_filter_results_for_role results role username = results
  /\ post_filter_results_for_role results role username
     = post_filter_results_for_role results "admin" username.
Proof.
  intros Ha Hs Ht.
  assert (post_filter_results_for_role results role username = results)
    as Hsame.
  { rewrite post_filter_unfold.
    apply String.eqb_neq in Ha. rewrite Ha.
    apply filter_all. intros r. by apply keep_row_other. }
  split; [exact Hsame|].
  rewrite Hsame, post_filter_unfold. reflexivity.
Qed.

Lemma post_filter_unknown_role_witness :
  lower "Guest" <> "admin"
  /\ lower "Guest" <> "student"
  /\ lower "Guest" <> "teacher"
  /\ post_filter_results_for_role
       [{["ID" := VStr "S001"]}; {["ID" := VStr "T002"]}] "Guest" "S001"
     = [{["ID" := VStr "S001"]}; {["ID" := VStr "T002"]}].
Proof.
  repeat (split; [discriminate|]).
  apply (post_filter_unknown_role _ "Guest" "S001"); discriminate.
Defined.

(** C1, as the code has it. For the role student, the row filter keeps
    exactly the rows that are not foreign to the student, in their order and
    unchanged: it removes a row whose [ID] is a string other than the user
    name or whose [s_ID] is any value other than the user name, and keeps
    every other row; a row with neither column is always kept. *)
Theorem post_filter_student results role username :
  lower role = "student" ->
  post_filter_results_for_role results role username
  = List.filter (keep_row "student" username) results
  /\ (forall r,
        keep_row "student" username r = true
        <-> ~ foreign_to_student username r)
  /\ (forall r,
        r !! "ID" = None -> r !! "s_ID" = None ->
        keep_row "student" username r = true).
Proof.
  intros Hrole. split; [|split].
  - rewrite post_filter_unfold, Hrole. reflexivity.
  - intros r. apply keep_row_student.
  - intros r HID HSID. apply keep_row_student.
    intros [(s & Hs & _) | (v & Hv & _)]; congruence.
Qed.

Lemma post_filter_student_witness :
  lower "Student" = "student"
  /\ post_filter_results_for_role
       [{["ID" := VStr "S001"]}; {["ID" := VStr "S002"]}] "Student" "S001"
     = List.filter (keep_row "student" "S001")
         [{["ID" := VStr "S001"]}; {["ID" := VStr "S002"]}].
Proof.
  split; [reflexivity|].
  apply (post_filter_student _ "Student" "S001"). reflexivity.
Defined.

(** C1 fails as stated: a row whose [ID] is the integer 7, which is not the
    user name, reaches a student. *)
Lemma post_filter_student_counterexample :
  ({["ID" := VInt 7]} : gmap string value) !! "ID" = Some (VInt 7)
  /\ VInt 7 <> VStr "S001"
  /\ post_filter_results_for_role [{["ID" := VInt 7]}] "student" "S001"
     = [{["ID" := VInt 7]}].
Proof.
  split; [reflexivity|]. split; [discriminate|].
  rewrite post_filter_unfold.
  change (String.eqb (lower "student") "admin") with false. cbv iota.
  change (lower "student") with "student".
  simpl List.filter.
  assert (keep_row "student" "S001" {["ID" := VInt 7]} = true) as ->;
    [|reflexivity].
  apply keep_row_student.
  intros [(s & Hs & _) | (v & Hv & _)].
  - rewrite lookup_singleton_eq in Hs. discriminate.
  - rewrite lookup_singleton_ne in Hv; discriminate.
Qed.

(** The teacher branch as the code has it.  For the role teacher, the row
    filter keeps exactly the rows that are not foreign to the teacher in the
    sense of the test on the first letter, in their order and unchanged: a
    cell identifies an instructor when it is a string that starts with T.
    A row whose [ID] and [i_ID] identify no instructor is kept; a row whose
    [ID] or [i_ID] identifies an instructor is kept only when that cell is
    the user name. *)
Theorem post_filter_teacher results role username :
  lower role = "teacher" ->
  post_filter_results_for_role results role username
  = List.filter (keep_row "teacher" username) results
  /\ (forall r,
        keep_row "teacher" username r = true
        <-> ~ foreign_to_teacher username r)
  /\ (forall r,
        (forall v, r !! "ID" = Some v -> ~ identifies_instructor v) ->
        (forall v, r !! "i_ID" = Some v -> ~ identifies_instructor v) ->
        keep_row "teacher" username r = true)
  /\ (forall r col v,
        col = "ID" \/ col = "i_ID" ->
        r !! col = Some v -> identifies_instructor v ->
        keep_row "teacher" username r = true -> v = VStr username).
Proof.
  intros Hrole. split; [|split; [|split]].
  - rewrite post_filter_unfold, Hrole. reflexivity.
  - intros r. apply keep_row_teacher.
  - intros r HID HIID. apply keep_row_teacher.
    intros [(v & Hv & Hi & _) | (v & Hv & Hi & _)].
    + exact (HID v Hv Hi).
    + exact (HIID v Hv Hi).
  - intros r col v Hcol Hv Hi Hkeep.
    apply keep_row_teacher in Hkeep.
    destruct (decide (v = VStr username)) as [|Hne]; [assumption|].
    exfalso. apply Hkeep.
    destruct Hcol as [-> | ->]; [left|right]; exists v; auto.
Qed.

Lemma post_filter_teacher_witness :
  lower "Teacher" = "teacher"
  /\ post_filter_results_for_role
       [{["ID" := VStr "T001"]}; {["ID" := VStr "T002"]}] "Teacher" "T001"
     = List.filter (keep_row "teacher" "T001")
         [{["ID" := VStr "T001"]}; {["ID" := VStr "T002"]}].
Proof.
  split; [reflexivity|].
  apply (post_filter_teacher _ "Teacher" "T001"). reflexivity.
Defined.

(** C4. The claim asks that, for the role teacher, every row of a
    student-scoped table is kept, and that a row carrying an instructor's
    identity in [ID] or [i_ID] is kept only when that identity is the
    caller.  The filter tells an instructor from a student by the first
    letter of the value, and so breaks both halves on rows that the store
    holds once a student has registered as Tom and an instructor as jsmith:
    for the teacher T001, the row of [takes] of the student Tom is removed,
    and the row of [advisor] whose instructor is jsmith is kept. *)
Theorem post_filter_teacher_first_letter :
  post_filter_results_for_role
    [<["ID" := VStr "Tom"]>
       (<["course_id" := VStr "C001"]> {["grade" := VStr "A"]})]
    "teacher" "T001"
  = []
  /\ post_filter_results_for_role
       [<["s_ID" := VStr "S001"]> {["i_ID" := VStr "jsmith"]}]
       "teacher" "T001"
     = [<["s_ID" := VStr "S001"]> {["i_ID" := VStr "jsmith"]}].
Proof. split; reflexivity. Qed.

End RowFilterClaims.

(** ** The word search *)

Section WordSearch.

Implicit Types (s t w pre post pat name : string) (c p : ascii).
Implicit Types (prev : option ascii).

Lemma lower_nil_inv w : lower w = "" -> w = "".
Proof. by destruct w. Qed.

Lemma lower_cons_inv w x t :
  lower w = String x t ->
  exists c w', w = String c w' /\ lower_char c = x /\ lower w' = t.
Proof.
  destruct w as [|c w']; [discriminate|]. simpl. intros [= Hc Hw].
  by exists c, w'.
Qed.

Lemma is_word_lower c : is_word_char (lower_char c) = is_word_char c.
Proof. destruct c as [[] [] [] [] [] [] [] []]; reflexivity. Qed.

Lemma head_app_cons c w post : head (String c w +:+ post) = Some c.
Proof. reflexivity. Qed.

Lemma last_from_nonempty prev prev' w :
  w <> "" -> last_from prev w = last_from prev' w.
Proof. destruct w as [|c w]; [congruence|reflexivity]. Qed.

(** Up to letter case, a text and a pattern end in the same kind of
    character. *)
Lemma word_at_last_lower prev w pat :
  lower w = lower pat ->
  word_at (last_from prev w) = word_at (last_from prev pat).
Proof.
  revert prev pat. induction w as [|c w IH]; intros prev pat H.
  - symmetry in H. apply lower_nil_inv in H as ->. reflexivity.
  - simpl in H. symmetry in H.
    apply lower_cons_inv in H as (p & pat' & -> & Hp & Hpat).
    simpl. destruct w as [|c' w].
    + apply lower_nil_inv in Hpat as ->. simpl.
      by rewrite <- (is_word_lower c), <- (is_word_lower p), Hp.
    + destruct pat' as [|p' pat']; [discriminate|].
      change (word_at (last_from (Some c) (String c' w))
              = word_at (last_from (Some p) (String p' pat'))).
      rewrite (IH (Some c) (String p' pat') (eq_sym Hpat)). reflexivity.
Qed.

Lemma word_at_head_lower w pat :
  lower w = lower pat -> word_at (head w) = word_at (head pat).
Proof.
  destruct w as [|c w], pat as [|p pat]; try discriminate; [done|].
  simpl. intros [= Hc _].
  by rewrite <- (is_word_lower c), <- (is_word_lower p), Hc.
Qed.

Lemma match_literal_b_spec pat prev s :
  match_literal_b pat prev s = true
  <-> exists w post,
        s = w +:+ post
        /\ lower w = lower pat
        /\ boundary (last_from prev w) (head post) = true.
Proof.
  revert prev s. induction pat as [|p pat IH]; intros prev s; simpl.
  - split.
    + intros H. by exists "", s.
    + intros (w & post & -> & Hw & Hb).
      apply lower_nil_inv in Hw as ->. exact Hb.
  - destruct s as [|c t].
    + split; [discriminate|].
      intros (w & post & Hs & Hw & _).
      apply lower_cons_inv in Hw as (c & w' & -> & _). discriminate.
    + rewrite andb_true_iff, IH. unfold char_matches_ci.
      rewrite Ascii.eqb_eq. split.
      * intros (Hc & w & post & -> & Hw & Hb).
        exists (String c w), post. simpl. by rewrite Hc, Hw.
      * intros (w & post & Hs & Hw & Hb).
        apply lower_cons_inv in Hw as (c' & w' & -> & Hc & Hw).
        rewrite sapp_cons in Hs. injection Hs as -> ->.
        split; [exact Hc|]. by exists w', post.
Qed.

Lemma search_from_spec pat prev s :
  search_from pat prev s = true
  <-> exists pre w post,
        s = pre +:+ w +:+ post
        /\ lower w = lower pat
        /\ boundary (last_from prev pre) (head (w +:+ post)) = true
        /\ boundary (last_from (last_from prev pre) w) (head post) = true.
Proof.
  revert prev. induction s as [|c s IH]; intros prev.
  - simpl. rewrite orb_false_r. unfold match_here.
    rewrite andb_true_iff, match_literal_b_spec. split.
    + intros (Hb & w & post & Hs & Hw & Hb').
      exists "", w, post. rewrite sapp_nil_l, <- Hs. by simpl.
    + intros (pre & w & post & Hs & Hw & Hb & Hb').
      destruct pre; [|discriminate]. rewrite sapp_nil_l in Hs.
      simpl in Hb, Hb'. rewrite <- Hs in Hb. split; [exact Hb|].
      by exists w, post.
  - simpl. rewrite orb_true_iff, IH. unfold match_here.
    rewrite andb_true_iff, match_literal_b_spec. split.
    + intros [(Hb & w & post & Hs & Hw & Hb') |
              (pre & w & post & -> & Hw & Hb & Hb')].
      * exists "", w, post. rewrite sapp_nil_l, <- Hs. by simpl.
      * by exists (String c pre), w, post.
    + intros (pre & w & post & Hs & Hw & Hb & Hb').
      destruct pre as [|c' pre].
      * left. rewrite sapp_nil_l in Hs. simpl in Hb, Hb'.
        rewrite <- Hs in Hb. split; [exact Hb|]. by exists w, post.
      * right. rewrite sapp_cons in Hs. injection Hs as -> ->.
        by exists pre, w, post.
Qed.

(** For a name that starts and ends with a word character, the search finds
    the name exactly when it occurs as a whole word in some letter case. *)
Lemma search_word_spec name s :
  word_at (head name) = true ->
  word_at (last_char name) = true ->
  search_word name s = true <-> occurs_as_word name s.
Proof.
  intros Hhead Hlast. unfold search_word, occurs_as_word.
  rewrite search_from_spec.
  assert (forall w post, lower w = lower name ->
            word_at (head (w +:+ post)) = true) as Hfirst.
  { intros w post Hw. destruct w as [|c w].
    - symmetry in Hw. apply lower_nil_inv in Hw.
      rewrite Hw in Hhead. discriminate.
    - rewrite head_app_cons.
      by rewrite <- Hhead, <- (word_at_head_lower (String c w) name Hw). }
  assert (forall prev w, lower w = lower name ->
            word_at (last_from prev w) = true) as Hend.
  { intros prev w Hw. rewrite (word_at_last_lower prev w name Hw).
    destruct name as [|p name]; [discriminate|].
    by rewrite (last_from_nonempty prev None) by discriminate. }
  split.
  - intros (pre & w & post & Hs & Hw & Hb & Hb').
    exists pre, w, post. unfold boundary in Hb, Hb'.
    rewrite (Hfirst w post Hw) in Hb. rewrite (Hend _ w Hw) in Hb'.
    fold (last_char pre) in Hb.
    repeat split; try assumption.
    + by destruct (word_at (last_char pre)).
    + by destruct (word_at (head post)).
  - intros (pre & w & post & Hs & Hw & Hpre & Hpost).
    exists pre, w, post. unfold boundary.
    rewrite (Hfirst w post Hw), (Hend _ w Hw).
    fold (last_char pre). by rewrite Hpre, Hpost.
Qed.

End WordSearch.

(** ** The static role policy filter *)

Section RolePolicy.

Implicit Types (sql role username : string).

Lemma search_login_credentials sql :
  search_word "login_credentials" sql = true
  <-> occurs_as_word "login_credentials" sql.
Proof. apply search_word_spec; reflexivity. Qed.

Lemma search_password sql :
  search_word "password" sql = true <-> occurs_as_word "password" sql.
Proof. apply search_word_spec; reflexivity. Qed.

(** C2. For every role and every statement that names the table
    [login_credentials] or the column [password] as a whole word in any
    letter case, the policy filter returns a message.  For the role student
    (in any letter case) it is the student message.  For any other role it
    is the message about the table when the table is named, whether or not
    the column is named too, and the message about the column otherwise. *)
Theorem is_sql_safe_rejects_credentials sql role username :
  occurs_as_word "login_credentials" sql \/ occurs_as_word "password" sql ->
  exists message,
    is_sql_safe_for_role sql role username = Some message
    /\ (lower role = "student" -> message = student_denied_message)
    /\ (lower role <> "student" ->
        (occurs_as_word "login_credentials" sql ->
         message = table_denied_message "login_credentials")
        /\ (~ occurs_as_word "login_credentials" sql ->
            message = column_denied_message "password")).
Proof.
  intros Hocc. unfold is_sql_safe_for_role.
  unfold SENSITIVE_TABLES, SENSITIVE_COLUMNS_ALWAYS. cbn [find].
  destruct (search_word "login_credentials" sql) eqn:Htbl.
  - apply search_login_credentials in Htbl.
    eexists. split; [reflexivity|]. split.
    + intros ->. reflexivity.
    + intros Hrole. apply String.eqb_neq in Hrole. rewrite Hrole.
      split; [reflexivity|]. intros Hno. contradiction.
  - assert (~ occurs_as_word "login_credentials" sql) as Hno.
    { rewrite <- search_login_credentials, Htbl. discriminate. }
    destruct Hocc as [Hocc|Hocc]; [contradiction|].
    apply search_password in Hocc. rewrite Hocc.
    eexists. split; [reflexivity|]. split.
    + intros ->. reflexivity.
    + intros Hrole. apply String.eqb_neq in Hrole. rewrite Hrole.
      split; [|reflexivity]. intros Hyes. contradiction.
Qed.

Lemma is_sql_safe_rejects_credentials_witness :
  exists message,
    is_sql_safe_for_role "SELECT Password FROM LOGIN_CREDENTIALS;"
      "teacher" "T001" = Some message
    /\ (lower "teacher" = "student" -> message = student_denied_message)
    /\ (lower "teacher" <> "student" ->
        (occurs_as_word "login_credentials"
           "SELECT Password FROM LOGIN_CREDENTIALS;" ->
         message = table_denied_message "login_credentials")
        /\ (~ occurs_as_word "login_credentials"
              "SELECT Password FROM LOGIN_CREDENTIALS;" ->
            message = column_denied_message "password")).
Proof.
  apply is_sql_safe_rejects_credentials.
  left. exists "SELECT Password FROM ", "LOGIN_CREDENTIALS", ";".
  repeat split; reflexivity.
Defined.

Example is_sql_safe_student_password :
  is_sql_safe_for_role "select PASSWORD from student" "Student" "S001"
  = Some student_denied_message.
Proof. reflexivity. Qed.

Example is_sql_safe_teacher_both :
  is_sql_safe_for_role "SELECT password FROM login_credentials" "teacher"
    "T001"
  = Some "Access to table 'login_credentials' is not allowed through the AI assistant.".
Proof. reflexivity. Qed.

Example is_sql_safe_not_a_word :
  is_sql_safe_for_role "SELECT passwords FROM my_login_credentials" "admin"
    "root"
  = None.
Proof. reflexivity. Qed.

Example is_sql_safe_student_salary :
  is_sql_safe_for_role "SELECT salary FROM instructor" "student" "S001"
  = Some student_denied_message.
Proof. reflexivity. Qed.

Example is_sql_safe_teacher_salary :
  is_sql_safe_for_role "SELECT salary FROM instructor" "teacher" "T001"
  = None.
Proof. reflexivity. Qed.

End RolePolicy.

(** ** The read-only guard *)

Section FirstMatch.

Context {A : Type} (f : A -> bool).

Lemma find_first_such (l : list A) (w : A) :
  find f l = Some w -> first_such f l w.
Proof.
  induction l as [|x l IH]; [discriminate|]. simpl.
  destruct (f x) eqn:Hx.
  - intros [= ->]. exists [], l. repeat split; [assumption|constructor].
  - intros H. destruct (IH H) as (before & after & -> & Hw & Hall).
    exists (x :: before), after. repeat split; [assumption|].
    by constructor.
Qed.

Lemma first_such_find (l : list A) (w : A) :
  first_such f l w -> find f l = Some w.
Proof.
  intros (before & after & -> & Hw & Hall).
  induction Hall as [|x before Hx _ IH]; simpl.
  - by rewrite Hw.
  - by rewrite Hx.
Qed.

Lemma find_some_of_member (l : list A) (x : A) :
  In x l -> f x = true -> exists w, find f l = Some w.
Proof.
  intros Hin Hx. destruct (find f l) as [w|] eqn:E; [by exists w|].
  pose proof (find_none f l E x Hin). congruence.
Qed.

End FirstMatch.

Section Guard.

Implicit Types (sql s word : string).

Lemma lower_forbidden word : In word forbidden -> lower word = word.
Proof.
  intros Hin. repeat (destruct Hin as [<-|Hin]; [reflexivity|]).
  destruct Hin.
Qed.

(** A keyword that occurs as a whole word, in any letter case, is a piece of
    the cleaned text. *)
Lemma occurs_contains_clean word sql :
  In word forbidden ->
  occurs_as_word word sql ->
  contains word (sql_clean_of sql) = true.
Proof.
  intros Hin (pre & w & post & -> & Hw & _).
  unfold sql_clean_of. apply contains_strip_forbidden; [assumption|].
  rewrite !lower_app, Hw, (lower_forbidden word Hin).
  apply contains_spec. by exists (lower pre), (lower post).
Qed.

(** The message about a keyword cites that keyword. *)
Lemma keyword_message_cites word :
  cites (keyword_message word) word = true.
Proof.
  unfold cites, keyword_message. apply contains_spec.
  eexists _, _. rewrite <- sapp_assoc. reflexivity.
Qed.

Lemma ai_sql_guard_not_select sql :
  startswith "select" (sql_clean_of sql) = false ->
  ai_sql_guard sql = Blocked read_only_message sql.
Proof. intros H. unfold ai_sql_guard. by rewrite H. Qed.

Lemma ai_sql_guard_first_keyword sql word :
  startswith "select" (sql_clean_of sql) = true ->
  find (fun w => contains w (sql_clean_of sql)) forbidden = Some word ->
  ai_sql_guard sql = Blocked (keyword_message word) sql.
Proof. intros Hsel Hfind. unfold ai_sql_guard. by rewrite Hsel, Hfind. Qed.

Lemma ai_sql_guard_no_keyword sql :
  startswith "select" (sql_clean_of sql) = true ->
  find (fun w => contains w (sql_clean_of sql)) forbidden = None ->
  ai_sql_guard sql
  = if contains ";" (strip_chars ";" (sql_clean_of sql))
    then Blocked multi_statement_message sql else NotBlocked.
Proof. intros Hsel Hfind. unfold ai_sql_guard. by rewrite Hsel, Hfind. Qed.

Lemma lstrip_by_ext (d1 d2 : ascii -> bool) s :
  (forall c, d1 c = d2 c) -> lstrip_by d1 s = lstrip_by d2 s.
Proof.
  intros H. induction s as [|c s IH]; [reflexivity|].
  simpl. by rewrite H, IH.
Qed.

Lemma rstrip_by_ext (d1 d2 : ascii -> bool) s :
  (forall c, d1 c = d2 c) -> rstrip_by d1 s = rstrip_by d2 s.
Proof.
  intros H. induction s as [|c s IH]; [reflexivity|].
  simpl. by rewrite H, IH.
Qed.

Lemma drops_semicolon_only c :
  contains (String c "") ";" = Ascii.eqb c semicolon.
Proof.
  simpl. rewrite andb_true_r, orb_false_r. reflexivity.
Qed.

(** The characters that [strip(";")] removes are the semicolons. *)
Lemma strip_chars_semicolon s :
  strip_chars ";" s = strip_by (fun c => Ascii.eqb c semicolon) s.
Proof.
  unfold strip_chars, strip_by.
  rewrite (lstrip_by_ext _ _ s drops_semicolon_only).
  apply rstrip_by_ext, drops_semicolon_only.
Qed.

(** Right stripping splits a text into what stays and a tail of removed
    characters; what stays is empty or ends with a character that stays. *)
Lemma rstrip_by_split (drop : ascii -> bool) s :
  exists tail,
    s = rstrip_by drop s +:+ tail
    /\ (rstrip_by drop s = ""
        \/ exists front b,
             rstrip_by drop s = front +:+ String b "" /\ drop b = false).
Proof.
  induction s as [|c s (tail & Hs & Hend)].
  - exists "". split; [reflexivity|]. by left.
  - simpl. destruct (rstrip_by drop s) as [|c' r] eqn:Er.
    + rewrite sapp_nil_l in Hs. subst tail.
      destruct (drop c) eqn:Hc.
      * exists (String c s). split; [reflexivity|]. by left.
      * exists s. split; [reflexivity|]. right. by exists "", c.
    + exists tail. split.
      * rewrite sapp_cons. by f_equal.
      * right. destruct Hend as [|(front & b & Hr & Hb)]; [discriminate|].
        exists (String c front), b. rewrite sapp_cons. by rewrite Hr.
Qed.

Lemma app_eq_snoc s t u b :
  s +:+ t = u +:+ String b "" ->
  t = "" \/ exists t', t = t' +:+ String b "".
Proof.
  revert u. induction s as [|c s IH]; intros u H.
  - rewrite sapp_nil_l in H. right. by exists u.
  - destruct u as [|c' u].
    + rewrite sapp_nil_l, sapp_cons in H. injection H as _ H.
      destruct s; [|discriminate]. rewrite sapp_nil_l in H. by left.
    + rewrite !sapp_cons in H. injection H as _ H. by apply (IH u).
Qed.

(** After right stripping of semicolons, a semicolon is left exactly when
    some semicolon of the text is followed by another character. *)
Lemma contains_rstrip_semicolon s :
  contains ";" (rstrip_by (fun c => Ascii.eqb c semicolon) s) = true
  <-> separator_inside s.
Proof.
  split.
  - intros H. apply contains_spec in H as (pre & post & Hr).
    destruct (rstrip_by_split (fun c => Ascii.eqb c semicolon) s)
      as (tail & Hs & Hend).
    destruct Hend as [He|(front & b & Hf & Hb)].
    { rewrite He in Hr. by destruct pre. }
    apply Ascii.eqb_neq in Hb.
    rewrite Hr in Hf.
    assert ((pre +:+ ";") +:+ post = front +:+ String b "") as Hf'.
    { by rewrite sapp_assoc. }
    apply app_eq_snoc in Hf' as [-> | (mid & ->)].
    + exfalso. rewrite sapp_nil_r in Hf. clear -Hf Hb.
      revert front Hf. induction pre as [|c pre IH]; intros front Hf.
      * destruct front as [|c' front].
        -- rewrite !sapp_nil_l in Hf. injection Hf as Hc.
           apply Hb. symmetry. exact Hc.
        -- rewrite sapp_nil_l, sapp_cons in Hf. injection Hf as _ Hf.
           by destruct front.
      * destruct front as [|c' front].
        -- rewrite sapp_nil_l, sapp_cons in Hf. injection Hf as _ Hf.
           by destruct pre.
        -- rewrite !sapp_cons in Hf. injection Hf as _ Hf. by apply (IH front).
    + exists pre, mid, b, tail. split; [|exact Hb].
      rewrite Hs, Hr. by rewrite !sapp_assoc.
  - intros (pre & mid & b & post & -> & Hb).
    apply Ascii.eqb_neq in Hb.
    replace (pre +:+ ";" +:+ mid +:+ String b post)
      with ((pre +:+ ";" +:+ mid) +:+ String b post)
      by (by rewrite !sapp_assoc).
    rewrite rstrip_by_app_keep by exact Hb.
    apply contains_app_r, contains_app_l, contains_app_r. reflexivity.
Qed.

(** A text that starts with SELECT has nothing to strip on its left. *)
Lemma lstrip_semicolon_select s :
  startswith "select" s = true ->
  lstrip_by (fun c => Ascii.eqb c semicolon) s = s.
Proof.
  intros H. apply startswith_inv in H as [t ->]. reflexivity.
Qed.

Lemma contains_strip_semicolon s :
  startswith "select" s = true ->
  contains ";" (strip_chars ";" s) = true <-> separator_inside s.
Proof.
  intros H. rewrite strip_chars_semicolon. unfold strip_by.
  rewrite (lstrip_semicolon_select s H). apply contains_rstrip_semicolon.
Qed.

End Guard.

Section GuardClaims.

Implicit Types (sql s word : string).

(** The guard lets a statement through exactly when its cleaned text starts
    with SELECT, holds no forbidden keyword, and has no semicolon that is
    followed by another character. *)
Theorem ai_sql_guard_passes sql :
  ai_sql_guard sql = NotBlocked
  <-> startswith "select" (sql_clean_of sql) = true
      /\ (forall word, In word forbidden ->
            contains word (sql_clean_of sql) = false)
      /\ ~ separator_inside (sql_clean_of sql).
Proof.
  destruct (startswith "select" (sql_clean_of sql)) eqn:Hsel.
  2:{ rewrite (ai_sql_guard_not_select sql Hsel). split; [discriminate|].
      by intros (? & _). }
  destruct (find (fun w => contains w (sql_clean_of sql)) forbidden)
    as [first|] eqn:Hfind.
  { rewrite (ai_sql_guard_first_keyword sql first Hsel Hfind).
    split; [discriminate|]. intros (_ & Hnone & _).
    apply find_some in Hfind as [Hin Hc].
    rewrite (Hnone first Hin) in Hc. discriminate. }
  rewrite (ai_sql_guard_no_keyword sql Hsel Hfind).
  rewrite <- (contains_strip_semicolon _ Hsel).
  destruct (contains ";" (strip_chars ";" (sql_clean_of sql))).
  - split; [discriminate|]. intros (_ & _ & H). by destruct H.
  - split; [|reflexivity]. intros _. split; [reflexivity|].
    split; [|discriminate]. apply (find_none _ _ Hfind).
Qed.

(** C6, as the code has it. A statement that holds a forbidden keyword as a
    whole word, anywhere and in any letter case, is blocked.  When its
    cleaned text does not start with SELECT the message is the read-only
    message.  When it does, the message cites the first keyword of the list
    insert, update, delete, create, drop, alter, truncate that is a piece of
    the cleaned text; it cites the keyword at hand when no keyword before it
    in the list is a piece of the text. *)
Theorem ai_sql_guard_keyword sql word :
  In word forbidden ->
  occurs_as_word word sql ->
  blocked (ai_sql_guard sql) = true
  /\ (startswith "select" (sql_clean_of sql) = false ->
      ai_sql_guard sql = Blocked read_only_message sql)
  /\ (startswith "select" (sql_clean_of sql) = true ->
      exists first,
        first_such (fun w => contains w (sql_clean_of sql)) forbidden first
        /\ ai_sql_guard sql = Blocked (keyword_message first) sql
        /\ cites (keyword_message first) first = true)
  /\ (startswith "select" (sql_clean_of sql) = true ->
      first_such (fun w => contains w (sql_clean_of sql)) forbidden word ->
      ai_sql_guard sql = Blocked (keyword_message word) sql).
Proof.
  intros Hin Hocc.
  pose proof (occurs_contains_clean word sql Hin Hocc) as Hc.
  destruct (find_some_of_member
              (fun w => contains w (sql_clean_of sql)) forbidden word Hin Hc)
    as [first Hfind].
  split; [|split; [|split]].
  - destruct (startswith "select" (sql_clean_of sql)) eqn:Hsel.
    + by rewrite (ai_sql_guard_first_keyword sql first Hsel Hfind).
    + by rewrite (ai_sql_guard_not_select sql Hsel).
  - apply ai_sql_guard_not_select.
  - intros Hsel. exists first. split; [by apply find_first_such|].
    split; [by apply ai_sql_guard_first_keyword|].
    apply keyword_message_cites.
  - intros Hsel Hfirst. apply ai_sql_guard_first_keyword; [assumption|].
    by apply first_such_find.
Qed.

Lemma ai_sql_guard_keyword_witness :
  In "update" forbidden
  /\ occurs_as_word "update" "select 1 from t where x = 'UPDATE'"
  /\ blocked (ai_sql_guard "select 1 from t where x = 'UPDATE'") = true.
Proof.
  assert (In "update" forbidden) as Hin by (right; left; reflexivity).
  assert (occurs_as_word "update" "select 1 from t where x = 'UPDATE'")
    as Hocc.
  { exists "select 1 from t where x = '", "UPDATE", "'".
    repeat split; reflexivity. }
  split; [exact Hin|]. split; [exact Hocc|].
  exact (proj1 (ai_sql_guard_keyword _ _ Hin Hocc)).
Defined.

(** C6 fails as stated: the statement DROP TABLE student holds the keyword
    drop as a whole word, and the message it is blocked with does not cite
    DROP. *)
Lemma ai_sql_guard_keyword_counterexample :
  In "drop" forbidden
  /\ occurs_as_word "drop" "DROP TABLE student"
  /\ ai_sql_guard "DROP TABLE student"
     = Blocked read_only_message "DROP TABLE student"
  /\ cites read_only_message "drop" = false.
Proof.
  split; [do 4 right; left; reflexivity|].
  split; [|split; reflexivity].
  exists "", "DROP", " TABLE student". repeat split; reflexivity.
Qed.

(** Two keywords in a statement that starts with SELECT: the message cites
    the one that comes first in the list, not the other. *)
Example ai_sql_guard_two_keywords :
  ai_sql_guard "SELECT 'update', 'insert'"
  = Blocked (keyword_message "insert") "SELECT 'update', 'insert'"
  /\ cites (keyword_message "insert") "update" = false.
Proof. split; reflexivity. Qed.

(** C3, as the code has it. A statement in whose cleaned text a semicolon
    is followed, at some distance, by a character other than a semicolon is
    blocked.  The message is that of the first test that fires: the
    read-only message when the cleaned text does not start with SELECT; the
    message about the first keyword of the list insert, update, delete,
    create, drop, alter, truncate that is a piece of the cleaned text when
    it starts with SELECT and holds such a keyword; and the multi-statement
    message when it starts with SELECT and holds no forbidden keyword. *)
Theorem ai_sql_guard_separator sql :
  separator_inside (sql_clean_of sql) ->
  blocked (ai_sql_guard sql) = true
  /\ (startswith "select" (sql_clean_of sql) = false ->
      ai_sql_guard sql = Blocked read_only_message sql)
  /\ (startswith "select" (sql_clean_of sql) = true ->
      forall first,
        first_such (fun w => contains w (sql_clean_of sql)) forbidden first ->
        ai_sql_guard sql = Blocked (keyword_message first) sql)
  /\ (startswith "select" (sql_clean_of sql) = true ->
      (forall word, In word forbidden ->
         contains word (sql_clean_of sql) = false) ->
      ai_sql_guard sql = Blocked multi_statement_message sql).
Proof.
  intros Hsep. split; [|split; [|split]].
  - destruct (ai_sql_guard sql) eqn:E; [reflexivity|].
    apply ai_sql_guard_passes in E as (_ & _ & Hno). contradiction.
  - apply ai_sql_guard_not_select.
  - intros Hsel first Hfirst.
    apply ai_sql_guard_first_keyword; [assumption|].
    by apply first_such_find.
  - intros Hsel Hnone.
    assert (find (fun w => contains w (sql_clean_of sql)) forbidden = None)
      as Hfind.
    { destruct (find _ forbidden) as [w|] eqn:E; [|reflexivity].
      apply find_some in E as [Hin Hc]. rewrite (Hnone w Hin) in Hc.
      discriminate. }
    rewrite (ai_sql_guard_no_keyword sql Hsel Hfind).
    apply (contains_strip_semicolon _ Hsel) in Hsep. by rewrite Hsep.
Qed.

Lemma ai_sql_guard_separator_witness :
  separator_inside (sql_clean_of "SELECT 1; SELECT 2")
  /\ blocked (ai_sql_guard "SELECT 1; SELECT 2") = true.
Proof.
  assert (separator_inside (sql_clean_of "SELECT 1; SELECT 2")) as Hsep.
  { exists "select 1", " select ", "2"%char, "".
    split; [reflexivity|discriminate]. }
  split; [exact Hsep|].
  exact (proj1 (ai_sql_guard_separator _ Hsep)).
Defined.

(** C3 fails as stated, in two ways.  In [select 1;;] a semicolon stands
    before the end, and the guard lets the statement through.  In
    [SELECT 1; DROP TABLE t] a semicolon stands before the end, and the
    statement is blocked with the message about DROP, not with the
    multi-statement message. *)
Lemma ai_sql_guard_separator_counterexample :
  (separator_misused (sql_clean_of "select 1;;")
   /\ ai_sql_guard "select 1;;" = NotBlocked)
  /\ (separator_misused (sql_clean_of "SELECT 1; DROP TABLE t")
      /\ ai_sql_guard "SELECT 1; DROP TABLE t"
         = Blocked (keyword_message "drop") "SELECT 1; DROP TABLE t"
      /\ keyword_message "drop" <> multi_statement_message).
Proof.
  split; [split|split; [|split]].
  - exists "select 1", ";". split; [reflexivity|discriminate].
  - reflexivity.
  - exists "select 1", " drop table t". split; [reflexivity|discriminate].
  - reflexivity.
  - discriminate.
Qed.

Example ai_sql_guard_scenario_d :
  ai_sql_guard "SELECT name FROM student WHERE ID='X'; DROP TABLE student;"
  = Blocked (keyword_message "drop")
      "SELECT name FROM student WHERE ID='X'; DROP TABLE student;".
Proof. reflexivity. Qed.

Example ai_sql_guard_trailing :
  ai_sql_guard "  SELECT name FROM student; " = NotBlocked.
Proof. reflexivity. Qed.

Example ai_sql_guard_two_selects :
  ai_sql_guard "SELECT 1; SELECT 2"
  = Blocked multi_statement_message "SELECT 1; SELECT 2".
Proof. reflexivity. Qed.

End GuardClaims.

(** ** The endpoint *)

Section Endpoint.

Implicit Types (w : World) (data : AIQuerySchema) (keyword : string).

Lemma dangerous_found data :
  existsb (fun keyword => contains keyword (lower (query data)))
    dangerous_keywords = true
  <-> exists keyword,
        In keyword dangerous_keywords
        /\ substring_of keyword (lower (query data)).
Proof.
  rewrite existsb_exists. unfold substring_of.
  split; intros (keyword & Hin & H); exists keyword; split; try assumption;
    by apply contains_spec.
Qed.

(** What the endpoint does for a question that holds a dangerous keyword. *)
Lemma ai_query_dangerous w data :
  existsb (fun keyword => contains keyword (lower (query data)))
    dangerous_keywords = true ->
  ai_query w data
  = ([Log INFO ("AI query from user " +:+ username data +:+ " (" +:+
                role data +:+ "): " +:+ take_prefix 100 (query data) +:+
                "...");
      Log WARNING
        ("AI query blocked: Potentially dangerous query from user " +:+
         username data)],
     fail read_only_refusal placeholder).
Proof. intros H. unfold ai_query. rewrite H. reflexivity. Qed.

(** What the endpoint does without a provider for any other question. *)
Lemma ai_query_no_client w data :
  existsb (fun keyword => contains keyword (lower (query data)))
    dangerous_keywords = false ->
  client w = None ->
  ai_query w data
  = ([Log INFO ("AI query from user " +:+ username data +:+ " (" +:+
                role data +:+ "): " +:+ take_prefix 100 (query data) +:+
                "...");
      Log WARNING "AI query failed: Gemini client not initialized"],
     fail ai_disabled_message placeholder).
Proof. intros H Hc. unfold ai_query. rewrite H, Hc. reflexivity. Qed.

(** C10. A question whose lowercase text holds one of drop, delete, update,
    insert, alter, create, truncate as a piece, also inside a longer word,
    is refused: the status is fail, the statement is the placeholder N/A and
    the text is the read-only refusal.  This is settled before the provider
    is looked at: the outcome is the same in every world, and the run makes
    no call to the provider. *)
Theorem ai_query_refuses_write_words w data keyword :
  In keyword dangerous_keywords ->
  substring_of keyword (lower (query data)) ->
  status (snd (ai_query w data)) = "fail"
  /\ sql_query (snd (ai_query w data)) = "N/A"
  /\ response (snd (ai_query w data)) = read_only_refusal
  /\ generate_calls (fst (ai_query w data)) = []
  /\ (forall w', ai_query w' data = ai_query w data).
Proof.
  intros Hin Hsub.
  assert (existsb (fun keyword => contains keyword (lower (query data)))
            dangerous_keywords = true) as Hd.
  { apply dangerous_found. by exists keyword. }
  rewrite (ai_query_dangerous w data Hd).
  repeat split; try reflexivity.
  intros w'. by rewrite (ai_query_dangerous w' data Hd).
Qed.

Lemma ai_query_refuses_write_words_witness :
  In "update" dangerous_keywords
  /\ substring_of "update"
       (lower "When was my grade last Updated?")
  /\ response
       (snd (ai_query scripted_world
               {| username := "S001"; role := "student";
                  query := "When was my grade last Updated?" |}))
     = read_only_refusal.
Proof.
  assert (In "update" dangerous_keywords) as Hin
    by (do 2 right; left; reflexivity).
  assert (substring_of "update" (lower "When was my grade last Updated?"))
    as Hsub by (exists "when was my grade last ", "d?"; reflexivity).
  split; [exact Hin|]. split; [exact Hsub|].
  exact (proj1 (proj2 (proj2
    (ai_query_refuses_write_words scripted_world
       {| username := "S001"; role := "student";
          query := "When was my grade last Updated?" |}
       "update" Hin Hsub)))).
Defined.

(** C5, as the code has it. Without a provider the endpoint answers every
    question with status fail and the placeholder N/A, and calls nothing.
    The text is the fixed AI-disabled message for a question that holds no
    dangerous keyword, and the read-only refusal for one that does. *)
Theorem ai_query_provider_unavailable w data :
  client w = None ->
  status (snd (ai_query w data)) = "fail"
  /\ sql_query (snd (ai_query w data)) = "N/A"
  /\ generate_calls (fst (ai_query w data)) = []
  /\ ((forall keyword, In keyword dangerous_keywords ->
         ~ substring_of keyword (lower (query data))) ->
      response (snd (ai_query w data)) = ai_disabled_message)
  /\ ((exists keyword, In keyword dangerous_keywords
         /\ substring_of keyword (lower (query data))) ->
      response (snd (ai_query w data)) = read_only_refusal).
Proof.
  intros Hc.
  destruct (existsb (fun keyword => contains keyword (lower (query data)))
              dangerous_keywords) eqn:Hd.
  - rewrite (ai_query_dangerous w data Hd).
    repeat split; try reflexivity.
    intros Hnone. apply dangerous_found in Hd as (keyword & Hin & Hsub).
    destruct (Hnone keyword Hin Hsub).
  - rewrite (ai_query_no_client w data Hd Hc).
    repeat split; try reflexivity.
    intros Hsome. apply dangerous_found in Hsome. congruence.
Qed.

Lemma ai_query_provider_unavailable_witness :
  client offline_world = None
  /\ status
       (snd (ai_query offline_world
               {| username := "S001"; role := "student";
                  query := "What are my grades?" |}))
     = "fail".
Proof.
  split; [reflexivity|].
  exact (proj1 (ai_query_provider_unavailable offline_world
                  {| username := "S001"; role := "student";
                     query := "What are my grades?" |} eq_refl)).
Defined.

(** C5 fails as stated: without a provider, the question
    [delete my record] is answered with the read-only refusal, not with the
    AI-disabled message. *)
Lemma ai_query_provider_unavailable_counterexample :
  client offline_world = None
  /\ response
       (snd (ai_query offline_world
               {| username := "S001"; role := "student";
                  query := "delete my record" |}))
     = read_only_refusal
  /\ read_only_refusal <> ai_disabled_message.
Proof. split; [reflexivity|]. split; [reflexivity|discriminate]. Qed.

Example ai_query_offline_plain :
  snd (ai_query offline_world
         {| username := "S001"; role := "student";
            query := "What are my grades?" |})
  = {| status := "fail";
       response := "AI is currently disabled due to missing API key or connection error.";
       sql_query := "N/A" |}.
Proof. reflexivity. Qed.

(** A student asks for grades; the generated statement is not narrowed to
    the student, the row filter removes the row of the other student before
    the answer is written. *)
Example ai_query_scripted_student :
  let data := {| username := "S001"; role := "student";
                 query := "What are my grades?" |} in
  snd (ai_query scripted_world data)
  = {| status := "success"; response := "You have one grade on record.";
       sql_query := "SELECT ID, grade FROM takes;" |}
  /\ In (GenerateCall
           (answer_synthesis_prompt data "SELECT ID, grade FROM takes;"
              "{'ID': 'S001'}") Temp_0_2)
        (fst (ai_query scripted_world data)).
Proof.
  split; [reflexivity|]. vm_compute. tauto.
Qed.

End Endpoint.
(** ** More on letter case and stripping *)

Section CaseAndStrip.

Implicit Types (s t : string) (c : ascii).

Lemma lower_char_idem c : lower_char (lower_char c) = lower_char c.
Proof. destruct c as [[] [] [] [] [] [] [] []]; reflexivity. Qed.

Lemma lower_idem s : lower (lower s) = lower s.
Proof.
  induction s as [|c s IH]; [reflexivity|].
  simpl. by rewrite lower_char_idem, IH.
Qed.

Lemma is_space_lower c : is_space (lower_char c) = is_space c.
Proof. destruct c as [[] [] [] [] [] [] [] []]; reflexivity. Qed.

Lemma lstrip_lower s :
  lstrip_by is_space (lower s) = lower (lstrip_by is_space s).
Proof.
  induction s as [|c s IH]; [reflexivity|].
  simpl. rewrite is_space_lower. by destruct (is_space c).
Qed.

Lemma rstrip_lower s :
  rstrip_by is_space (lower s) = lower (rstrip_by is_space s).
Proof.
  induction s as [|c s IH]; [reflexivity|].
  simpl. rewrite IH, is_space_lower.
  destruct (rstrip_by is_space s); simpl; [|reflexivity].
  by destruct (is_space c).
Qed.

(** Trimming and lowering commute. *)
Lemma strip_lower s : strip (lower s) = lower (strip s).
Proof. unfold strip, strip_by. by rewrite lstrip_lower, rstrip_lower. Qed.

Variable drop : ascii -> bool.

(** What is left of a left strip is empty or starts with a character that
    stays. *)
Lemma lstrip_by_head s :
  lstrip_by drop s = ""
  \/ exists a t, lstrip_by drop s = String a t /\ drop a = false.
Proof.
  induction s as [|c s IH]; [by left|].
  simpl. destruct (drop c) eqn:Hc; [exact IH|].
  right. by exists c, s.
Qed.

Lemma rstrip_by_idem s :
  rstrip_by drop (rstrip_by drop s) = rstrip_by drop s.
Proof.
  destruct (rstrip_by_split drop s) as (tail & _ & [->|(front & b & -> & Hb)]).
  - reflexivity.
  - by rewrite rstrip_by_app_keep.
Qed.

Lemma strip_by_idem s : strip_by drop (strip_by drop s) = strip_by drop s.
Proof.
  unfold strip_by.
  destruct (lstrip_by_head s) as [->|(a & t & -> & Ha)]; [reflexivity|].
  rewrite <- (sapp_nil_l (String a t)).
  rewrite rstrip_by_app_keep by exact Ha. rewrite sapp_nil_l.
  rewrite lstrip_by_keep by exact Ha.
  rewrite <- (sapp_nil_l (String a (rstrip_by drop t))).
  rewrite rstrip_by_app_keep by exact Ha.
  by rewrite rstrip_by_idem.
Qed.

(** A stripped text neither starts nor ends with a removed character. *)
Lemma strip_by_ends s :
  strip_by drop s = ""
  \/ (exists a t, strip_by drop s = String a t /\ drop a = false)
     /\ (exists front b,
           strip_by drop s = front +:+ String b "" /\ drop b = false).
Proof.
  unfold strip_by.
  destruct (lstrip_by_head s) as [->|(a & t & -> & Ha)]; [by left|].
  right. split.
  - exists a, (rstrip_by drop t).
    rewrite <- (sapp_nil_l (String a t)).
    by rewrite rstrip_by_app_keep.
  - destruct (rstrip_by_split drop (String a t))
      as (tail & _ & [He|Hend]); [|exact Hend].
    rewrite <- (sapp_nil_l (String a t)) in He.
    rewrite rstrip_by_app_keep in He by exact Ha. discriminate.
Qed.

End CaseAndStrip.

Lemma strip_idem s : strip (strip s) = strip s.
Proof. apply strip_by_idem. Qed.

Lemma sql_clean_of_lower sql : sql_clean_of (lower sql) = sql_clean_of sql.
Proof. unfold sql_clean_of. by rewrite lower_idem. Qed.

Lemma sql_clean_of_strip sql : sql_clean_of (strip sql) = sql_clean_of sql.
Proof. unfold sql_clean_of. by rewrite <- strip_lower, strip_idem. Qed.

(** ** More on the read-only guard *)

Section GuardMore.

Implicit Types (sql s t word : string) (c : ascii).

Lemma startswith_app_r p s t :
  startswith p s = true -> startswith p (s +:+ t) = true.
Proof.
  intros H. apply startswith_inv in H as [u ->].
  rewrite sapp_assoc. apply startswith_app.
Qed.

(** The verdict of the guard is read off the cleaned text alone. *)
Lemma guard_message_clean sql sql' :
  sql_clean_of sql = sql_clean_of sql' ->
  guard_message (ai_sql_guard sql) = guard_message (ai_sql_guard sql').
Proof.
  intros H. unfold ai_sql_guard. rewrite H.
  destruct (startswith "select" (sql_clean_of sql')); [|reflexivity].
  cbn [negb].
  destruct (find (fun w => contains w (sql_clean_of sql')) forbidden);
    [reflexivity|].
  by destruct (contains ";" (strip_chars ";" (sql_clean_of sql'))).
Qed.

Lemma ai_sql_guard_echo sql message s :
  ai_sql_guard sql = Blocked message s -> s = sql.
Proof.
  unfold ai_sql_guard.
  destruct (startswith "select" (sql_clean_of sql)); cbn [negb];
    [|by intros [= _ <-]].
  destruct (find _ forbidden); [by intros [= _ <-]|].
  destruct (contains ";" _); [by intros [= _ <-]|discriminate].
Qed.

(** A space has no capital; the letters of SELECT have theirs. *)
Lemma upper_char_space c : is_space c = true -> upper_char c = String c "".
Proof. destruct c as [[] [] [] [] [] [] [] []]; (discriminate || reflexivity). Qed.

Ltac upper_of_lower c H :=
  revert H; destruct c as [[] [] [] [] [] [] [] []];
  intros H; (discriminate H || reflexivity).

Lemma upper_of_lower_s c : lower_char c = "s"%char -> upper_char c = "S".
Proof. intros H. upper_of_lower c H. Qed.

Lemma upper_of_lower_e c : lower_char c = "e"%char -> upper_char c = "E".
Proof. intros H. upper_of_lower c H. Qed.

Lemma upper_of_lower_l c : lower_char c = "l"%char -> upper_char c = "L".
Proof. intros H. upper_of_lower c H. Qed.

Lemma upper_of_lower_c c : lower_char c = "c"%char -> upper_char c = "C".
Proof. intros H. upper_of_lower c H. Qed.

Lemma upper_of_lower_t c : lower_char c = "t"%char -> upper_char c = "T".
Proof. intros H. upper_of_lower c H. Qed.

Lemma lstrip_upper_select s :
  startswith "select" (lower (lstrip_by is_space s)) = true ->
  exists u, lstrip_by is_space (upper s) = "SELECT" +:+ u.
Proof.
  induction s as [|c s IH]; [discriminate|].
  cbn [lstrip_by upper]. destruct (is_space c) eqn:Hc.
  - intros H. destruct (IH H) as [u Hu]. exists u.
    rewrite (upper_char_space c Hc), sapp_cons, sapp_nil_l.
    cbn [lstrip_by]. by rewrite Hc.
  - intros H. apply startswith_inv in H as [rest H].
    destruct s as [|c2 [|c3 [|c4 [|c5 [|c6 s]]]]]; try discriminate H.
    cbn [lower] in H. rewrite !sapp_cons, sapp_nil_l in H.
    injection H; intros _ H6 H5 H4 H3 H2 H1.
    exists (upper s). cbn [upper].
    rewrite (upper_of_lower_s c H1), (upper_of_lower_e c2 H2),
      (upper_of_lower_l c3 H3), (upper_of_lower_e c4 H4),
      (upper_of_lower_c c5 H5), (upper_of_lower_t c6 H6).
    reflexivity.
Qed.

Lemma clean_select_upper s :
  startswith "select" (strip (lower s)) = true ->
  startswith "SELECT" (strip (upper s)) = true.
Proof.
  rewrite strip_lower. unfold strip, strip_by. intros H.
  assert (startswith "select" (lower (lstrip_by is_space s)) = true) as H'.
  { destruct (rstrip_by_split is_space (lstrip_by is_space s))
      as (tail & Hs & _).
    rewrite Hs, lower_app. by apply startswith_app_r. }
  destruct (lstrip_upper_select s H') as [u ->].
  change ("SELECT" +:+ u) with ("SELEC" +:+ String "T" u).
  rewrite rstrip_by_app_keep by reflexivity. reflexivity.
Qed.

Lemma substring_blocked sql word :
  In word forbidden ->
  contains word (lower sql) = true ->
  blocked (ai_sql_guard sql) = true.
Proof.
  intros Hin Hc.
  apply (contains_strip_forbidden word _ Hin) in Hc.
  fold (sql_clean_of sql) in Hc.
  destruct (startswith "select" (sql_clean_of sql)) eqn:Hsel.
  - destruct (find_some_of_member
                (fun w => contains w (sql_clean_of sql)) forbidden word
                Hin Hc) as [first Hfind].
    by rewrite (ai_sql_guard_first_keyword sql first Hsel Hfind).
  - by rewrite (ai_sql_guard_not_select sql Hsel).
Qed.

End GuardMore.

Section GuardExtras.

Implicit Types (sql word : string).

(** X1. The guard lets a statement through exactly when its trimmed,
    lowercased text starts with select, holds none of the seven forbidden
    keywords as a piece, and has no semicolon that is followed, at any
    distance, by a character other than a semicolon. *)
Theorem ai_sql_guard_accepts_exactly sql :
  ai_sql_guard sql = NotBlocked
  <-> startswith "select" (sql_clean_of sql) = true
      /\ (forall word, In word forbidden ->
            ~ substring_of word (sql_clean_of sql))
      /\ ~ separator_inside (sql_clean_of sql).
Proof.
  rewrite ai_sql_guard_passes. unfold substring_of.
  split; intros (Hsel & Hnone & Hsep); repeat split; try assumption.
  - intros word Hin Hsub. apply contains_spec in Hsub.
    rewrite (Hnone word Hin) in Hsub. discriminate.
  - intros word Hin.
    destruct (contains word (sql_clean_of sql)) eqn:E; [|reflexivity].
    apply contains_spec in E. destruct (Hnone word Hin E).
Qed.

(** X2. The verdict of the guard does not change when the statement is
    written in lower case or when the white space around it is removed; and
    a blocked statement is handed back as it was given. *)
Theorem ai_sql_guard_case_and_space sql :
  guard_message (ai_sql_guard (lower sql)) = guard_message (ai_sql_guard sql)
  /\ guard_message (ai_sql_guard (strip sql))
     = guard_message (ai_sql_guard sql)
  /\ (forall message s, ai_sql_guard sql = Blocked message s -> s = sql).
Proof.
  split; [|split].
  - apply guard_message_clean, sql_clean_of_lower.
  - apply guard_message_clean, sql_clean_of_strip.
  - apply ai_sql_guard_echo.
Qed.

(** X3. The keyword test looks for pieces of text, not for words: a
    statement is blocked as soon as a forbidden keyword occurs inside it, in
    any letter case, also inside a longer name such as created_at. *)
Theorem ai_sql_guard_blocks_substring sql word :
  In word forbidden ->
  substring_of word (lower sql) ->
  blocked (ai_sql_guard sql) = true.
Proof.
  intros Hin Hsub. apply (substring_blocked sql word Hin).
  by apply contains_spec.
Qed.

Lemma ai_sql_guard_blocks_substring_witness :
  In "create" forbidden
  /\ substring_of "create" (lower "SELECT Created_At FROM course")
  /\ blocked (ai_sql_guard "SELECT Created_At FROM course") = true.
Proof.
  assert (In "create" forbidden) as Hin by (do 3 right; left; reflexivity).
  assert (substring_of "create" (lower "SELECT Created_At FROM course"))
    as Hsub by (exists "select ", "d_at from course"; reflexivity).
  split; [exact Hin|]. split; [exact Hsub|].
  exact (ai_sql_guard_blocks_substring _ _ Hin Hsub).
Defined.

(** X4. A statement that the guard lets through starts with SELECT once it is
    put in capitals and trimmed: the second test of the endpoint, made on
    that form, never fails after the guard. *)
Theorem ai_sql_guard_implies_select sql :
  ai_sql_guard sql = NotBlocked ->
  startswith "SELECT" (strip (upper sql)) = true.
Proof.
  intros H. apply ai_sql_guard_passes in H as (Hsel & _).
  by apply clean_select_upper.
Qed.

Lemma ai_sql_guard_implies_select_witness :
  ai_sql_guard "  Select name From student; " = NotBlocked
  /\ startswith "SELECT" (strip (upper "  Select name From student; "))
     = true.
Proof.
  split; [reflexivity|].
  apply ai_sql_guard_implies_select. reflexivity.
Defined.

End GuardExtras.

(** ** More on the role policy filter *)

Section RolePolicyMore.

Implicit Types (sql role username message : string).

Lemma search_salary sql :
  search_word "salary" sql = true <-> occurs_as_word "salary" sql.
Proof. apply search_word_spec; reflexivity. Qed.

(** The columns hidden from a role: salary for student, none for any other
    role, known or not. *)
Lemma blocked_cols_of role_lower :
  default [] (SENSITIVE_COLUMNS_BY_ROLE !! role_lower)
  = if String.eqb role_lower "student" then ["salary"] else [].
Proof.
  unfold SENSITIVE_COLUMNS_BY_ROLE.
  destruct (String.eqb_spec role_lower "student") as [->|Hs].
  { by rewrite lookup_insert_eq. }
  rewrite lookup_insert_ne by congruence.
  destruct (decide (role_lower = "teacher")) as [->|Ht].
  { by rewrite lookup_insert_eq. }
  rewrite lookup_insert_ne by congruence.
  destruct (decide (role_lower = "admin")) as [->|Ha].
  { by rewrite lookup_insert_eq. }
  rewrite lookup_insert_ne by congruence.
  by rewrite lookup_empty.
Qed.

(** The filter as a table of cases. *)
Lemma is_sql_safe_table sql role username :
  is_sql_safe_for_role sql role username
  = if search_word "login_credentials" sql then
      Some (if String.eqb (lower role) "student" then student_denied_message
            else table_denied_message "login_credentials")
    else if search_word "password" sql then
      Some (if String.eqb (lower role) "student" then student_denied_message
            else column_denied_message "password")
    else if String.eqb (lower role) "student" && search_word "salary" sql
    then Some student_denied_message
    else None.
Proof.
  unfold is_sql_safe_for_role, SENSITIVE_TABLES, SENSITIVE_COLUMNS_ALWAYS.
  cbn [find]. rewrite blocked_cols_of.
  destruct (search_word "login_credentials" sql); [reflexivity|].
  destruct (search_word "password" sql); [reflexivity|].
  destruct (String.eqb (lower role) "student"); cbn [find andb];
    [|reflexivity].
  by destruct (search_word "salary" sql).
Qed.

End RolePolicyMore.

Section RolePolicyExtras.

Implicit Types (sql role username message : string).

(** X5. The policy filter lets a statement through exactly when it names
    neither the table login_credentials nor the column password as a whole
    word, in any letter case, and, for the role student only, does not name
    the column salary either.  Every other role, known or not, may name
    salary. *)
Theorem is_sql_safe_accepts_exactly sql role username :
  is_sql_safe_for_role sql role username = None
  <-> ~ occurs_as_word "login_credentials" sql
      /\ ~ occurs_as_word "password" sql
      /\ (lower role = "student" -> ~ occurs_as_word "salary" sql).
Proof.
  rewrite is_sql_safe_table.
  rewrite <- search_login_credentials, <- search_password, <- search_salary.
  destruct (search_word "login_credentials" sql).
  { split; [discriminate|]. intros (H & _). by destruct H. }
  destruct (search_word "password" sql).
  { split; [discriminate|]. intros (_ & H & _). by destruct H. }
  destruct (String.eqb_spec (lower role) "student") as [Hs|Hs]; cbn [andb].
  - destruct (search_word "salary" sql).
    + split; [discriminate|]. intros (_ & _ & H). by destruct (H Hs).
    + split; [|reflexivity]. intros _. repeat split; discriminate.
  - split; [|reflexivity]. intros _.
    repeat split; try discriminate. intros Hs'. contradiction.
Qed.

(** X6. A refusal of the policy filter is never the empty text, so the
    endpoint, which tests the text for truth, never takes a refusal for a
    pass.  For the role student the refusal is always the student message;
    for any other role it is the message about the table login_credentials
    or the message about the column password, and nothing else. *)
Theorem is_sql_safe_refusals sql role username message :
  is_sql_safe_for_role sql role username = Some message ->
  message <> ""
  /\ (lower role = "student" -> message = student_denied_message)
  /\ (lower role <> "student" ->
      message = table_denied_message "login_credentials"
      \/ message = column_denied_message "password").
Proof.
  rewrite is_sql_safe_table.
  destruct (String.eqb_spec (lower role) "student") as [Hs|Hs]; cbn [andb].
  - destruct (search_word "login_credentials" sql);
      [|destruct (search_word "password" sql);
        [|destruct (search_word "salary" sql); [|discriminate]]].
    all: intros [= <-]; split; [discriminate|]; split; [reflexivity|].
    all: intros Hne; contradiction.
  - destruct (search_word "login_credentials" sql);
      [|destruct (search_word "password" sql); [|discriminate]].
    all: intros [= <-]; split; [discriminate|]; split;
      [intros Heq; contradiction|]; intros _.
    + by left.
    + by right.
Qed.

Lemma is_sql_safe_refusals_witness :
  is_sql_safe_for_role "SELECT salary FROM instructor" "Student" "S001"
  = Some student_denied_message
  /\ student_denied_message <> "".
Proof.
  assert (is_sql_safe_for_role "SELECT salary FROM instructor" "Student"
            "S001" = Some student_denied_message) as H by reflexivity.
  split; [exact H|].
  exact (proj1 (is_sql_safe_refusals _ _ _ _ H)).
Defined.

End RolePolicyExtras.

(** ** More on the row-level filter *)

Section RowFilterExtras.

Implicit Types (results more : list (gmap string value)).
Implicit Types (role username : string).

Lemma filter_is_sublist {A} (f : A -> bool) (l : list A) :
  sublist (List.filter f l) l.
Proof.
  induction l as [|x l IH]; [constructor|]. simpl.
  destruct (f x); by constructor.
Qed.

(** X7. For every role the row filter returns a sub-sequence of its input:
    it adds no row, changes no row and keeps the order, so it never returns
    more rows than it was given. *)
Theorem post_filter_sublist results role username :
  sublist (post_filter_results_for_role results role username) results
  /\ length (post_filter_results_for_role results role username)
     <= length results.
Proof.
  assert (sublist (post_filter_results_for_role results role username)
            results) as H.
  { rewrite post_filter_unfold.
    destruct (String.eqb (lower role) "admin"); [reflexivity|].
    apply filter_is_sublist. }
  split; [exact H|]. by apply sublist_length.
Qed.

(** X8. The row filter decides on each row by itself: filtering two lists
    one after the other gives the filtered first list followed by the
    filtered second list. *)
Theorem post_filter_app results more role username :
  post_filter_results_for_role (results ++ more) role username
  = post_filter_results_for_role results role username
    ++ post_filter_results_for_role more role username.
Proof.
  rewrite !post_filter_unfold.
  destruct (String.eqb (lower role) "admin"); [reflexivity|].
  apply List.filter_app.
Qed.

End RowFilterExtras.

(** ** More on the endpoint *)

Section EndpointMore.

Implicit Types (w : World) (data : AIQuerySchema) (sql : string).

Lemma is_sql_safe_nonempty sql role username :
  is_sql_safe_for_role sql role username <> Some "".
Proof.
  rewrite is_sql_safe_table.
  repeat match goal with
         | |- context [if ?b then _ else _] => destruct b
         end; discriminate.
Qed.

Lemma post_filter_twice (results : list (gmap string value)) role username :
  post_filter_results_for_role
    (post_filter_results_for_role results role username) role username
  = post_filter_results_for_role results role username.
Proof.
  rewrite !post_filter_unfold.
  destruct (String.eqb (lower role) "admin"); [reflexivity|].
  apply filter_filter_same.
Qed.

End EndpointMore.

(** Every way through the endpoint, one goal each. *)
Ltac endpoint_paths :=
  unfold ai_query, generate_and_run, check_and_run, execute_and_answer,
    on_exception, on_api_error, fail;
  cbv zeta;
  repeat match goal with
         | |- context [match ?x with _ => _ end] =>
             let E := fresh "E" in destruct x eqn:E
         end;
  cbn [fst snd status response sql_query].

Section EndpointExtras.

Implicit Types (w : World) (data : AIQuerySchema) (sql : string).

(** X9. The endpoint gives the store two kinds of statement: the fixed
    query on the catalogue, and the generated statement.  Whatever the
    provider answers, a generated statement is given to the store only when
    the guard lets it through and the policy filter accepts it for the
    caller's role.  And when the question holds a dangerous keyword, or when
    there is no provider, the run consists of log records alone: the store
    gets neither the catalogue query nor a statement, and the provider is
    not called. *)
Theorem ai_query_runs_only_vetted w data :
  (forall sql,
     In (ExecuteSql sql) (fst (ai_query w data)) ->
     ai_sql_guard sql = NotBlocked
     /\ is_sql_safe_for_role sql (role data) (username data) = None)
  /\ (existsb (fun keyword => contains keyword (lower (query data)))
        dangerous_keywords = true
      \/ client w = None ->
      forall e,
        In e (fst (ai_query w data)) ->
        exists level message, e = Log level message).
Proof.
  split.
  - intros sql. endpoint_paths.
    all: rewrite ?in_app_iff; cbn [In].
    all: intros H; repeat destruct H as [H|H]; try discriminate H;
      try contradiction.
    all: injection H as <-.
    all: repeat split; try assumption; try discriminate.
    all: match goal with
         | E : is_sql_safe_for_role _ _ _ = Some ?m,
           E' : String.eqb ?m "" = true |- _ =>
             apply String.eqb_eq in E'; subst m;
             destruct (is_sql_safe_nonempty _ _ _ E)
         end.
  - intros Hearly e.
    destruct (existsb (fun keyword => contains keyword (lower (query data)))
                dangerous_keywords) eqn:Hd.
    + rewrite (ai_query_dangerous w data Hd). cbn [fst In].
      intros [<-|[<-|[]]]; by eexists _, _.
    + destruct Hearly as [Hearly|Hc]; [discriminate|].
      rewrite (ai_query_no_client w data Hd Hc). cbn [fst In].
      intros [<-|[<-|[]]]; by eexists _, _.
Qed.

Lemma ai_query_runs_only_vetted_witness :
  In (ExecuteSql "SELECT ID, grade FROM takes;")
     (fst (ai_query scripted_world
             {| username := "S001"; role := "student";
                query := "What are my grades?" |}))
  /\ ai_sql_guard "SELECT ID, grade FROM takes;" = NotBlocked.
Proof.
  assert (In (ExecuteSql "SELECT ID, grade FROM takes;")
            (fst (ai_query scripted_world
                    {| username := "S001"; role := "student";
                       query := "What are my grades?" |}))) as H
    by (vm_compute; tauto).
  split; [exact H|].
  exact (proj1 (proj1 (ai_query_runs_only_vetted _ _) _ H)).
Defined.

(** X10. A response with status success is always built the same way: the
    statement it shows is the provider's first reply, trimmed; that
    statement passed the guard and the policy filter and was run by the
    store; and the answer is the provider's second reply, trimmed, to a
    prompt written from the rows that the row filter left for the caller. *)
Theorem ai_query_success w data :
  status (snd (ai_query w data)) = "success" ->
  exists cl tables text rows answer,
    let sql := strip text in
    let results :=
      post_filter_results_for_role rows (role data) (username data) in
    client w = Some cl
    /\ db_tables w = Rows tables
    /\ generate_content cl
         (sql_generation_prompt data (schema_info_of tables)) Temp_0_0
       = Reply (Some text)
    /\ ai_sql_guard sql = NotBlocked
    /\ is_sql_safe_for_role sql (role data) (username data) = None
    /\ db_execute w sql = Rows rows
    /\ generate_content cl
         (answer_synthesis_prompt data sql
            (join nl (List.map (str_row w) results))) Temp_0_2
       = Reply (Some answer)
    /\ snd (ai_query w data)
       = {| status := "success"; response := strip answer;
            sql_query := sql |}.
Proof.
  endpoint_paths.
  all: try discriminate.
  all: intros _; cbv zeta.
  all: try match goal with
       | E : is_sql_safe_for_role _ _ _ = Some ?m,
         E' : String.eqb ?m "" = true |- _ =>
           apply String.eqb_eq in E'; subst m;
           destruct (is_sql_safe_nonempty _ _ _ E)
       end.
  all: eexists _, _, _, _, _; repeat split; eassumption.
Qed.

Lemma ai_query_success_witness :
  status (snd (ai_query scripted_world
                 {| username := "S001"; role := "student";
                    query := "What are my grades?" |})) = "success"
  /\ exists cl tables text rows answer,
       client scripted_world = Some cl
       /\ db_tables scripted_world = Rows tables
       /\ generate_content cl
            (sql_generation_prompt
               {| username := "S001"; role := "student";
                  query := "What are my grades?" |}
               (schema_info_of tables)) Temp_0_0
          = Reply (Some text)
       /\ ai_sql_guard (strip text) = NotBlocked
       /\ is_sql_safe_for_role (strip text) "student" "S001" = None
       /\ db_execute scripted_world (strip text) = Rows rows
       /\ generate_content cl
            (answer_synthesis_prompt
               {| username := "S001"; role := "student";
                  query := "What are my grades?" |}
               (strip text)
               (join nl
                  (List.map (str_row scripted_world)
                     (post_filter_results_for_role rows "student" "S001"))))
            Temp_0_2
          = Reply (Some answer)
       /\ snd (ai_query scripted_world
                 {| username := "S001"; role := "student";
                    query := "What are my grades?" |})
          = {| status := "success"; response := strip answer;
               sql_query := strip text |}.
Proof.
  split; [reflexivity|].
  exact (ai_query_success scripted_world
           {| username := "S001"; role := "student";
              query := "What are my grades?" |} eq_refl).
Defined.

(** X11. A response has status success or fail.  When a failing response
    shows a statement rather than the placeholder N/A, that statement was
    refused by the guard or by the policy filter, and the store ran nothing.
    Every later failure (of the store or of the provider) is reported with
    the placeholder. *)
Theorem ai_query_failure w data :
  status (snd (ai_query w data)) <> "success" ->
  status (snd (ai_query w data)) = "fail"
  /\ (sql_query (snd (ai_query w data)) = "N/A"
      \/ (forall sql, ~ In (ExecuteSql sql) (fst (ai_query w data)))
         /\ (blocked (ai_sql_guard (sql_query (snd (ai_query w data)))) = true
             \/ is_sql_safe_for_role (sql_query (snd (ai_query w data)))
                  (role data) (username data) <> None)).
Proof.
  endpoint_paths.
  all: intros Hnot; try (by destruct Hnot).
  all: split; [reflexivity|].
  all: try (left; reflexivity).
  all: right.
  all: try match goal with
       | E : ai_sql_guard ?s = NotBlocked,
         E' : negb (startswith "SELECT" (strip (upper ?s))) = true |- _ =>
           apply ai_sql_guard_passes in E as (E & _);
           apply clean_select_upper in E; rewrite E in E'; discriminate E'
       end.
  all: split;
    [ intros stmt; rewrite ?in_app_iff; cbn [In];
      intros H; repeat destruct H as [H|H]; try discriminate H;
      contradiction
    | ].
  - left. match goal with
          | E : ai_sql_guard _ = Blocked _ ?s |- _ =>
              rewrite (ai_sql_guard_echo _ _ _ E), E; reflexivity
          end.
  - right. match goal with
           | E : is_sql_safe_for_role _ _ _ = Some _ |- _ => by rewrite E
           end.
Qed.

Lemma ai_query_failure_witness :
  status (snd (ai_query offline_world
                 {| username := "S001"; role := "student";
                    query := "What are my grades?" |})) <> "success"
  /\ status (snd (ai_query offline_world
                    {| username := "S001"; role := "student";
                       query := "What are my grades?" |})) = "fail".
Proof.
  assert (status (snd (ai_query offline_world
                         {| username := "S001"; role := "student";
                            query := "What are my grades?" |}))
          <> "success") as H by discriminate.
  split; [exact H|].
  exact (proj1 (ai_query_failure _ _ H)).
Defined.


(** X13. The outcome of the endpoint depends on the rows of the store only
    through the row filter: a store that hands over the rows already
    filtered for the caller gives the same response and the same calls. *)
Theorem ai_query_rows_through_filter w data :
  ai_query
    {| client := client w;
       db_tables := db_tables w;
       db_execute := fun sql =>
         match db_execute w sql with
         | Rows rows =>
             Rows (post_filter_results_for_role rows (role data)
                     (username data))
         | RaisesSqliteError => RaisesSqliteError
         | RaisesOtherInDb details => RaisesOtherInDb details
         end;
       http_exception_text := http_exception_text w;
       str_row := str_row w |} data
  = ai_query w data.
Proof.
  set (w' := Build_World _ _ _ _ _).
  assert (forall cl sql tr,
            execute_and_answer w' cl data sql tr
            = execute_and_answer w cl data sql tr) as Hexec.
  { intros cl sql tr. unfold execute_and_answer. cbv zeta.
    subst w'. cbn [db_execute http_exception_text str_row].
    destruct (db_execute w sql); try reflexivity.
    by rewrite post_filter_twice. }
  assert (forall cl schema_info sql tr,
            check_and_run w' cl data schema_info sql tr
            = check_and_run w cl data schema_info sql tr) as Hcheck.
  { intros cl schema_info sql tr. unfold check_and_run.
    by rewrite !Hexec. }
  unfold ai_query, generate_and_run. cbv zeta.
  change (client w') with (client w).
  change (db_tables w') with (db_tables w).
  change (http_exception_text w') with (http_exception_text w).
  destruct (existsb _ dangerous_keywords); [reflexivity|].
  destruct (client w) as [cl|]; [|reflexivity].
  destruct (db_tables w); try reflexivity.
  destruct (generate_content cl _ Temp_0_0) as [[text|]| |]; try reflexivity.
  apply Hcheck.
Qed.

End EndpointExtras.

(** ** The account endpoints *)

Section AccountsMore.

Import Accounts.

Implicit Types (creds : gmap string credential) (user : credential).
Implicit Types (u p old new : string).

Lemma eq_str_spec (v : value) (text : string) :
  eq_str v text = true <-> v = VStr text.
Proof. unfold eq_str. rewrite negb_true_iff. apply ne_str_false. Qed.

Lemma eq_one_spec (v : value) :
  eq_one v = true <-> v = VInt 1 \/ v = VFloat 4607182418800017408.
Proof.
  destruct v as [|n|bits| |]; simpl;
    try (split; [discriminate|intros [|]; discriminate]).
  - rewrite Z.eqb_eq. split; [intros ->; by left|].
    intros [[= ->]|]; [reflexivity|discriminate].
  - rewrite Z.eqb_eq. split; [intros ->; by right|].
    intros [|[= ->]]; [discriminate|reflexivity].
Qed.

Lemma body_status (status message : string) :
  message_body status message !! "status" = Some (VStr status).
Proof. unfold message_body. apply lookup_insert_eq. Qed.

(** What [login] answers for a store that works, case by case. *)
Lemma login_known creds u p user :
  creds !! u = Some user ->
  login (Some creds) u p
  = if ne_str (password user) p then Returns invalid_credentials
    else if eq_str (role user) "admin" || eq_one (approved user)
    then Returns (<["status" := VStr "success"]> {["role" := role user]})
    else Returns (message_body "fail" "User not approved yet").
Proof. intros H. unfold login. by rewrite H. Qed.

Lemma login_unknown creds u p :
  creds !! u = None -> login (Some creds) u p = Returns invalid_credentials.
Proof. intros H. unfold login. by rewrite H. Qed.

Lemma login_other creds u u' p user :
  u' <> u -> login (Some (<[u := user]> creds)) u' p = login (Some creds) u' p.
Proof. intros H. unfold login. by rewrite lookup_insert_ne. Qed.

End AccountsMore.

Section AccountsExtras.

Import Accounts.

Implicit Types (db : option (gmap string credential)).
Implicit Types (creds : gmap string credential) (user : credential).
Implicit Types (u p old new : string).

(** X14. [login] gives the same answer, Invalid credentials, for a user
    name that is not in the table and for a known user name with another
    password: the answer does not tell which user names exist. *)
Theorem login_hides_usernames creds u p :
  creds !! u = None
  \/ (exists user, creds !! u = Some user /\ password user <> VStr p) ->
  login (Some creds) u p = Returns invalid_credentials.
Proof.
  intros [Hnone|(user & Hu & Hp)].
  - by apply login_unknown.
  - rewrite (login_known creds u p user Hu).
    apply ne_str_spec in Hp. by rewrite Hp.
Qed.

Lemma login_hides_usernames_witness :
  login (Some ∅) "ghost" "secret" = Returns invalid_credentials.
Proof.
  apply login_hides_usernames. left. apply lookup_empty.
Defined.

(** X15. [login] answers with status success exactly when the store works,
    the user name is in the table, the password given is the stored text,
    and the stored role is admin or the stored approval is the number 1; an
    admin gets in whatever the approval is.  The answer then carries the
    stored role. *)
Theorem login_succeeds_exactly db u p :
  (exists body,
     login db u p = Returns body /\ body !! "status" = Some (VStr "success"))
  <-> exists creds user,
        db = Some creds
        /\ creds !! u = Some user
        /\ password user = VStr p
        /\ (role user = VStr "admin"
            \/ approved user = VInt 1
            \/ approved user = VFloat 4607182418800017408)
        /\ login db u p
           = Returns (<["status" := VStr "success"]> {["role" := role user]}).
Proof.
  split.
  - intros (body & Hlogin & Hstatus).
    destruct db as [creds|]; [|discriminate].
    destruct (creds !! u) as [user|] eqn:Hu.
    2:{ rewrite (login_unknown creds u p Hu) in Hlogin.
        injection Hlogin as <-. unfold invalid_credentials in Hstatus.
        rewrite body_status in Hstatus. discriminate. }
    rewrite (login_known creds u p user Hu) in Hlogin |- *.
    destruct (ne_str (password user) p) eqn:Hp.
    { injection Hlogin as <-. unfold invalid_credentials in Hstatus.
      rewrite body_status in Hstatus. discriminate. }
    apply ne_str_false in Hp.
    destruct (eq_str (role user) "admin" || eq_one (approved user)) eqn:Hok.
    2:{ injection Hlogin as <-. rewrite body_status in Hstatus.
        discriminate. }
    exists creds, user. repeat split; try assumption; try reflexivity.
    apply orb_true_iff in Hok as [Hr|Ha].
    + left. by apply eq_str_spec.
    + right. by apply eq_one_spec.
  - intros (creds & user & -> & Hu & Hp & Hok & Hlogin).
    eexists. split; [exact Hlogin|]. apply lookup_insert_eq.
Qed.

(** X16. After [update_password] has accepted the old password, [login] with
    the new password answers what [login] with the old password answered
    before; the old password, when it differs from the new one, is refused;
    and nothing changes for any other user name. *)
Theorem update_password_then_login creds u old new user :
  creds !! u = Some user ->
  password user = VStr old ->
  fst (update_password (Some creds) u old new)
  = Returns (message_body "success" "Password updated")
  /\ login (snd (update_password (Some creds) u old new)) u new
     = login (Some creds) u old
  /\ (new <> old ->
      login (snd (update_password (Some creds) u old new)) u old
      = Returns invalid_credentials)
  /\ (forall u' p, u' <> u ->
        login (snd (update_password (Some creds) u old new)) u' p
        = login (Some creds) u' p).
Proof.
  intros Hu Hp. unfold update_password. rewrite Hu.
  assert (ne_str (password user) old = false) as Hold
    by (by apply ne_str_false).
  rewrite Hold. cbn [fst snd].
  split; [reflexivity|]. split; [|split].
  - rewrite (login_known creds u old user Hu), Hold.
    erewrite login_known by apply lookup_insert_eq.
    cbn [password role approved ne_str].
    by rewrite String.eqb_refl.
  - intros Hne.
    erewrite login_known by apply lookup_insert_eq.
    cbn [password ne_str].
    apply String.eqb_neq in Hne. by rewrite Hne.
  - intros u' p Hne. by apply login_other.
Qed.

Lemma update_password_then_login_witness :
  login
    (snd (update_password
            (Some {["S001" := {| password := VStr "old-secret";
                                 role := VStr "student";
                                 approved := VInt 1 |}]})
            "S001" "old-secret" "new-secret"))
    "S001" "new-secret"
  = login
      (Some {["S001" := {| password := VStr "old-secret";
                           role := VStr "student";
                           approved := VInt 1 |}]})
      "S001" "old-secret".
Proof.
  set (user := {| password := VStr "old-secret"; role := VStr "student";
                  approved := VInt 1 |}).
  assert (({["S001" := user]} : gmap string credential) !! "S001"
          = Some user) as Hu by apply lookup_singleton_eq.
  exact (proj1 (proj2 (update_password_then_login _ "S001" "old-secret"
                         "new-secret" user Hu eq_refl))).
Defined.

(** X17. [update_password] raises only in three cases, and then leaves the
    table as it was: 500 when the store fails, 404 when the user name is
    not in the table, 400 when the old password given is not the stored
    text. *)
Theorem update_password_refused db u old new code detail :
  fst (update_password db u old new) = RaisesHTTP code detail ->
  snd (update_password db u old new) = db
  /\ (code = 500%Z /\ db = None
      \/ code = 404%Z
         /\ (exists creds, db = Some creds /\ creds !! u = None)
      \/ code = 400%Z
         /\ (exists creds user,
               db = Some creds /\ creds !! u = Some user
               /\ password user <> VStr old)).
Proof.
  unfold update_password.
  destruct db as [creds|]; cbn [fst snd].
  2:{ intros [= <- _]. split; [reflexivity|]. by left. }
  destruct (creds !! u) as [user|] eqn:Hu; cbn [fst snd].
  2:{ intros [= <- _]. split; [reflexivity|]. right. left.
      split; [reflexivity|]. by exists creds. }
  destruct (ne_str (password user) old) eqn:Hp; cbn [fst snd];
    [|discriminate].
  intros [= <- _]. split; [reflexivity|]. right. right.
  split; [reflexivity|]. exists creds, user.
  repeat split; try assumption. by apply ne_str_spec.
Qed.

Lemma update_password_refused_witness :
  fst (update_password (Some ∅) "ghost" "a" "bbbbbb")
  = RaisesHTTP 404 "User not found"
  /\ snd (update_password (Some ∅) "ghost" "a" "bbbbbb") = Some ∅.
Proof.
  assert (fst (update_password (Some ∅) "ghost" "a" "bbbbbb")
          = RaisesHTTP 404 "User not found") as H by reflexivity.
  split; [exact H|].
  exact (proj1 (update_password_refused _ _ _ _ _ _ H)).
Defined.

(** X18. [reject_user] never answers 404, whatever the store does.  For a
    user name that is not in the table, the 404 it raises inside the [try]
    block is caught by the handler and replaced by 500 Reject failed (by
    500 Database connection failed when the [ROLLBACK] of the handler raises
    as well).  Whenever [reject_user] raises, the status is 500 and the
    table is left as it was. *)
Theorem reject_user_unknown f creds u :
  creds !! u = None ->
  reject_user f (Some creds) u
  = (RaisesHTTP 500 (if rollback_raises f then "Database connection failed"
                     else "Reject failed"),
     Some creds)
  /\ (forall f' db u' code detail,
        fst (reject_user f' db u') = RaisesHTTP code detail ->
        code = 500%Z /\ snd (reject_user f' db u') = db).
Proof.
  intros Hu. split.
  - unfold reject_user, reject_handler. rewrite Hu.
    by destruct (select_raises f), (rollback_raises f).
  - intros f' db u' code detail. unfold reject_user, reject_handler.
    destruct db as [creds'|]; cbn [fst snd];
      [|intros [= <- _]; by split].
    destruct (select_raises f'), (rollback_raises f'); cbn [fst snd];
      try (intros [= <- _]; by split).
    all: destruct (creds' !! u'); cbn [fst snd];
      try (intros [= <- _]; by split).
    all: destruct (eq_minus_one _); cbn [fst snd]; try discriminate.
    all: destruct (update_raises f'); cbn [fst snd];
      try (intros [= <- _]; by split).
    all: destruct (commit_raises f'); cbn [fst snd];
      try (intros [= <- _]; by split).
    all: discriminate.
Qed.

Lemma reject_user_unknown_witness :
  reject_user no_faults (Some ∅) "ghost"
  = (RaisesHTTP 500 "Reject failed", Some ∅).
Proof.
  apply (reject_user_unknown no_faults). apply lookup_empty.
Defined.

(** X19. After [reject_user], run on a store without faults, has rejected
    a user, that user, unless an admin, is told User not approved yet at
    [login] with the right password; an admin gets the same answer from
    [login] as before; all other user names are answered as before; and a
    second [reject_user] answers User already rejected and leaves the table
    as it is. *)
Theorem reject_user_then_login creds u user :
  creds !! u = Some user ->
  eq_minus_one (approved user) = false ->
  fst (reject_user no_faults (Some creds) u)
  = Returns (message_body "success" ("User " +:+ u +:+ " rejected"))
  /\ (forall p, password user = VStr p -> role user <> VStr "admin" ->
        login (snd (reject_user no_faults (Some creds) u)) u p
        = Returns (message_body "fail" "User not approved yet"))
  /\ (forall p, role user = VStr "admin" ->
        login (snd (reject_user no_faults (Some creds) u)) u p
        = login (Some creds) u p)
  /\ (forall u' p, u' <> u ->
        login (snd (reject_user no_faults (Some creds) u)) u' p
        = login (Some creds) u' p)
  /\ reject_user no_faults (snd (reject_user no_faults (Some creds) u)) u
     = (Returns (message_body "fail" "User already rejected"),
        snd (reject_user no_faults (Some creds) u)).
Proof.
  intros Hu Hnot.
  assert (reject_user no_faults (Some creds) u
          = (Returns (message_body "success" ("User " +:+ u +:+ " rejected")),
             Some (<[u := {| password := password user; role := role user;
                             approved := VInt (-1) |}]> creds))) as ->.
  { unfold reject_user. by rewrite Hu, Hnot. }
  cbn [fst snd].
  split; [reflexivity|]. split; [|split; [|split]].
  - intros p Hp Hrole.
    erewrite login_known by apply lookup_insert_eq.
    cbn [password role approved eq_one].
    apply ne_str_false in Hp. rewrite Hp.
    assert (eq_str (role user) "admin" = false) as ->; [|reflexivity].
    apply not_true_iff_false. by rewrite eq_str_spec.
  - intros p Hrole.
    erewrite login_known by apply lookup_insert_eq.
    rewrite (login_known creds u p user Hu).
    cbn [password role approved].
    apply eq_str_spec in Hrole. by rewrite Hrole.
  - intros u' p Hne. by apply login_other.
  - unfold reject_user. rewrite lookup_insert_eq. reflexivity.
Qed.

Lemma reject_user_then_login_witness :
  login
    (snd (reject_user
            no_faults
            (Some {["S001" := {| password := VStr "secret";
                                 role := VStr "student";
                                 approved := VInt 1 |}]})
            "S001"))
    "S001" "secret"
  = Returns (message_body "fail" "User not approved yet").
Proof.
  set (user := {| password := VStr "secret"; role := VStr "student";
                  approved := VInt 1 |}).
  assert (({["S001" := user]} : gmap string credential) !! "S001"
          = Some user) as Hu by apply lookup_singleton_eq.
  assert (role user <> VStr "admin") as Hrole by discriminate.
  exact (proj1 (proj2 (reject_user_then_login _ "S001" user Hu eq_refl))
           "secret" eq_refl Hrole).
Defined.

(** X20. The department written for a new account is never the empty text
    and never has white space around it: it is the major, trimmed, or CS
    when no major is given or when the major is empty or only white
    space. *)
Theorem dept_never_blank (major : option string) :
  dept major <> ""
  /\ strip (dept major) = dept major
  /\ (forall s, major = Some s -> strip s <> "" -> dept major = strip s)
  /\ (major = None \/ (exists s, major = Some s /\ strip s = "") ->
      dept major = "CS").
Proof.
  unfold dept.
  assert (forall given,
            (if String.eqb (strip given) "" then "CS" else strip given) <> ""
            /\ strip (if String.eqb (strip given) "" then "CS"
                      else strip given)
               = (if String.eqb (strip given) "" then "CS"
                  else strip given)) as Hgiven.
  { intros given. destruct (String.eqb_spec (strip given) "") as [He|He].
    - split; [discriminate|reflexivity].
    - split; [exact He|apply strip_idem]. }
  split; [|split; [|split]].
  - apply Hgiven.
  - apply Hgiven.
  - intros s -> Hs.
    destruct (String.eqb_spec s "") as [->|Hne]; [by destruct Hs|].
    apply String.eqb_neq in Hs. by rewrite Hs.
  - intros [->|(s & -> & Hs)]; [reflexivity|].
    destruct (String.eqb s ""); [reflexivity|]. by rewrite Hs.
Qed.

End AccountsExtras.
